(** * qebil.tools.util: integrity-checked downloads and accession scanning

    A shallow embedding of [src/qebil/tools/util.py]:
    - [check_download_integrity] and [retrieve_ftp_file] (the checksum
      validator and the downloader built on it),
    - [parse_document] (the document tokenizer),
    - [scrape_ebi_ids] (the accession scanner).

    Python text is embedded as [string], read as a sequence of code points
    in the range 0..255; integers that the source computes with ([find]
    results, lengths, status codes) are [Z].  The file system, the network
    log and the logger are fields of one [World] that every function
    threads through; what the outside world answers (the FTP and HTTP
    servers, the PDF reader, the MD5 function of [hashlib]) is a section
    variable of the component that uses it. *)

From Stdlib Require Import ZArith Ascii Lia.
From Stdlib.Strings Require Import Byte.
From Stdlib Require String.
From stdpp Require Import base option list strings gmap.

Local Open Scope Z_scope.

(* ===================================================================== *)
(** ** Python [str] operations used by the module *)
(* ===================================================================== *)

Module PyStr.

(** [len(s)] *)
Definition len (s : string) : Z := Z.of_nat (String.length s).

(** [s[n:]] for a natural [n]. *)
Fixpoint drop (n : nat) (s : string) : string :=
  match n, s with
  | O, _ => s
  | S n', String _ s' => drop n' s'
  | S _, EmptyString => EmptyString
  end.

(** [s[:n]] for a natural [n]. *)
Fixpoint take (n : nat) (s : string) : string :=
  match n, s with
  | S n', String c s' => String c (take n' s')
  | _, _ => EmptyString
  end.

(** A slice bound as Python normalises it: a negative bound counts from
    the end, and every bound is clamped into [0, len]. *)
Definition clamp (s : string) (b : Z) : nat :=
  Z.to_nat (if b <? 0 then Z.max 0 (len s + b) else Z.min (len s) b).

(** [s[lo:hi]]; [None] stands for an omitted bound. *)
Definition slice (s : string) (lo hi : option Z) : string :=
  let l := match lo with Some b => clamp s b | None => O end in
  let h := match hi with Some b => clamp s b | None => String.length s end in
  take (h - l) (drop l s).

(** [s[i]]: [None] is Python's [IndexError]. *)
Definition item (s : string) (i : Z) : option ascii :=
  let j := if i <? 0 then len s + i else i in
  if (0 <=? j) && (j <? len s) then String.get (Z.to_nat j) s else None.

(** [s.startswith(p)] *)
Fixpoint startswith (p s : string) : bool :=
  match p, s with
  | EmptyString, _ => true
  | String a p', String b s' => if Ascii.eqb a b then startswith p' s' else false
  | String _ _, EmptyString => false
  end.

(** [sub in s] *)
Fixpoint contains (sub s : string) : bool :=
  startswith sub s ||
  match s with
  | EmptyString => false
  | String _ s' => contains sub s'
  end.

(** [s.find(sub)]: index of the first occurrence, [-1] when there is
    none.  [find_from] carries the index of the head of [s]. *)
Fixpoint find_from (i : Z) (s sub : string) : Z :=
  if startswith sub s then i
  else match s with
       | EmptyString => -1
       | String _ s' => find_from (i + 1) s' sub
       end.

Definition find (s sub : string) : Z := find_from 0 s sub.

(** [c.isnumeric()] on the code points 0..255: the ten digits, the
    superscripts two, three and one, and the three vulgar fractions. *)
Definition isnumeric_char (c : ascii) : bool :=
  let n := Z.of_nat (nat_of_ascii c) in
  ((48 <=? n) && (n <=? 57)) || (n =? 178) || (n =? 179) || (n =? 185)
  || ((188 <=? n) && (n <=? 190)).

(** [s.isnumeric()]: every character numeric and at least one character. *)
Fixpoint all_numeric (s : string) : bool :=
  match s with
  | EmptyString => true
  | String c s' => isnumeric_char c && all_numeric s'
  end.

Definition isnumeric (s : string) : bool :=
  match s with
  | EmptyString => false
  | _ => all_numeric s
  end.

(** White space as [str.strip()] sees it on the code points 0..255. *)
Definition isspace_char (c : ascii) : bool :=
  let n := Z.of_nat (nat_of_ascii c) in
  ((9 <=? n) && (n <=? 13)) || ((28 <=? n) && (n <=? 32))
  || (n =? 133) || (n =? 160).

Fixpoint lstrip (p : ascii -> bool) (s : string) : string :=
  match s with
  | EmptyString => EmptyString
  | String c s' => if p c then lstrip p s' else s
  end.

Fixpoint rstrip (p : ascii -> bool) (s : string) : string :=
  match s with
  | EmptyString => EmptyString
  | String c s' =>
      match rstrip p s' with
      | EmptyString => if p c then EmptyString else String c EmptyString
      | r => String c r
      end
  end.

(** [s.strip()] is [strip_by isspace_char s]; [s.strip(",")] is
    [strip_chars "," s]: characters of the given set are removed at both
    ends. *)
Definition strip_by (p : ascii -> bool) (s : string) : string :=
  rstrip p (lstrip p s).

Fixpoint char_in (c : ascii) (chars : string) : bool :=
  match chars with
  | EmptyString => false
  | String d chars' => Ascii.eqb c d || char_in c chars'
  end.

Definition strip (s : string) : string := strip_by isspace_char s.
Definition strip_chars (chars s : string) : string :=
  strip_by (fun c => char_in c chars) s.

(** [re.split] for a pattern that is an alternation of non-empty
    literals: at every position the alternatives are tried in order, the
    first that matches there is consumed and closes the current piece.
    [skip] counts the characters of a matched delimiter still to drop;
    [cur] is the piece being built. *)
Fixpoint first_match (alts : list string) (s : string) : option string :=
  match alts with
  | [] => None
  | d :: alts' => if startswith d s then Some d else first_match alts' s
  end.

Fixpoint split_go (alts : list string) (skip : nat) (cur s : string)
  : list string :=
  match s with
  | EmptyString => [cur]
  | String c s' =>
      match skip with
      | S k => split_go alts k cur s'
      | O =>
          match first_match alts s with
          | Some d => cur :: split_go alts (String.length d - 1) EmptyString s'
          | None => split_go alts O (cur +:+ String c EmptyString) s'
          end
      end
  end.

Definition re_split (alts : list string) (s : string) : list string :=
  split_go alts O EmptyString s.

End PyStr.

(* ===================================================================== *)
(** ** The world the module runs in *)
(* ===================================================================== *)

(** Exceptions the modelled calls can raise. *)
Inductive exn :=
| URLError                       (* urllib.error.URLError and its subclasses *)
| RequestException               (* requests.exceptions.RequestException *)
| OSError                        (* an OSError that urllib does not wrap *)
| FileNotFoundError
| UnicodeDecodeError
| PdfReadError
| IndexError
| AttributeError (attr : string).

Inductive Outcome (A : Type) :=
| Returned (a : A)
| Raised (e : exn).
Arguments Returned {A} a.
Arguments Raised {A} e.

Inductive Level := INFO | WARNING.

Inductive NetEvent :=
| UrlRetrieve (url : string)     (* urllib.request.urlretrieve *)
| HttpGet (url : string).        (* requests.get *)

(** Regular files by path, the requests sent so far (oldest first) and the
    records handed to [qebil.log.logger] (oldest first). *)
Record World := mkWorld {
  files : gmap string (list byte);
  net : list NetEvent;
  log : list (Level * string)
}.

(** A computation reads and updates the world and either returns or
    raises. *)
Definition M (A : Type) : Type := World -> World * Outcome A.

#[global] Instance M_ret : MRet M := fun A a w => (w, Returned a).
#[global] Instance M_bind : MBind M := fun A B k m w =>
  match m w with
  | (w', Returned a) => k a w'
  | (w', Raised e) => (w', Raised e)
  end.

Definition raise {A} (e : exn) : M A := fun w => (w, Raised e).

(** [try: body except <class>: handler], the class given by [catches]. *)
Definition try_except {A} (body : M A) (catches : exn -> bool) (handler : M A)
  : M A := fun w =>
  match body w with
  | (w', Raised e) => if catches e then handler w' else (w', Raised e)
  | r => r
  end.

(** [for x in xs: acc = body(acc, x)]: a loop whose body updates the local
    variables [acc]; an exception leaves the loop. *)
Fixpoint for_each {A B} (xs : list A) (body : B -> A -> M B) (acc : B) : M B :=
  match xs with
  | [] => mret acc
  | x :: xs' => acc' ← body acc x; for_each xs' body acc'
  end.

Definition logger_info (msg : string) : M unit := fun w =>
  (mkWorld (files w) (net w) (log w ++ [(INFO, msg)]), Returned tt).

Definition logger_warning (msg : string) : M unit := fun w =>
  (mkWorld (files w) (net w) (log w ++ [(WARNING, msg)]), Returned tt).

(** [os.path.isfile] *)
Definition isfile (p : string) : M bool := fun w =>
  (w, Returned (bool_decide (is_Some (files w !! p)))).

(** [os.remove] *)
Definition remove (p : string) : M unit := fun w =>
  match files w !! p with
  | Some _ => (mkWorld (delete p (files w)) (net w) (log w), Returned tt)
  | None => (w, Raised FileNotFoundError)
  end.

(** [f = open(p, "rb"); c = f.read(); f.close()] *)
Definition read_bytes (p : string) : M (list byte) := fun w =>
  match files w !! p with
  | Some c => (w, Returned c)
  | None => (w, Raised FileNotFoundError)
  end.

(** What [requests.get(url)] comes back with: a response object, of which
    the module reads [status_code] and [text], or no response at all (the
    call raises). *)
Inductive HttpResponse :=
| Response (status_code : Z) (text : string)
| NoResponse.

Definition requests_get (server : string -> HttpResponse) (url : string)
  : M (Z * string) := fun w =>
  let w' := mkWorld (files w) (net w ++ [HttpGet url]) (log w) in
  match server url with
  | Response code body => (w', Returned (code, body))
  | NoResponse => (w', Raised RequestException)
  end.

(** The value of a function documented to return [str or bool]: a string,
    or [False]. *)
Inductive StrOrFalse :=
| Str (s : string)
| PyFalse.

(** Python truth value: a string is true when it is not empty. *)
Definition truthy (v : StrOrFalse) : bool :=
  match v with
  | Str EmptyString => false
  | Str _ => true
  | PyFalse => false
  end.

(* ===================================================================== *)
(** ** ChecksumValidator and IntegrityVerifiedDownloader *)
(* ===================================================================== *)

Module Download.

(** [hexdigest()] of a 128-bit digest: its 32 hexadecimal digits, most
    significant first, in lower case. *)
Definition hex_digit (n : N) : ascii :=
  match String.get (N.to_nat n) "0123456789abcdef" with
  | Some c => c
  | None => "0"%char
  end.

Fixpoint hex_digits (k : nat) (d : N) (acc : string) : string :=
  match k with
  | O => acc
  | S k' => hex_digits k' (d / 16)%N (String (hex_digit (d mod 16)%N) acc)
  end.

Definition hexdigest (d : N) : string := hex_digits 32 d EmptyString.

(** What the FTP server does with one [urlretrieve(url, dest)]: deliver
    the whole file, or fail with an exception: before anything is
    written ([None], the connection is not made) or after part of the
    file was sent. *)
Inductive Transfer :=
| Delivered (content : list byte)
| Failed (e : exn) (partial : option (list byte)).

(** Why [open(dest, "wb")] fails: the directory of [dest] is missing, or
    the file may not be written. *)
Inductive OpenError :=
| NoSuchDirectory
| NotPermitted.

(** The exception [open] raises: [FileNotFoundError], or the
    [PermissionError] that is an [OSError]; neither is a [URLError]. *)
Definition open_exn (o : OpenError) : exn :=
  match o with
  | NoSuchDirectory => FileNotFoundError
  | NotPermitted => OSError
  end.

(** [except urllib.error.URLError] *)
Definition is_URLError (e : exn) : bool :=
  match e with
  | URLError => true
  | _ => false
  end.

Section Downloader.

(** [hashlib.md5(contents).digest()], read as a 128-bit number. *)
Variable md5 : list byte -> N.

(** The server's answer by URL. *)
Variable ftp_server : string -> Transfer.

(** Whether a file can be created at a path: [None] when
    [open(dest, "wb")] succeeds. *)
Variable open_wb : string -> option OpenError.

(** What one [urlretrieve(url, dest)] comes to.  The library connects
    first, then opens the destination for writing, then copies: when the
    connection is made and the destination cannot be opened, the call
    raises the error of [open] and writes nothing. *)
Definition transfer_outcome (url dest : string) : Transfer :=
  match ftp_server url with
  | Failed e None => Failed e None
  | answer =>
      match open_wb dest with
      | Some o => Failed (open_exn o) None
      | None => answer
      end
  end.

(** [urllib.request.urlretrieve(url, dest)] *)
Definition urlretrieve (url dest : string) : M unit := fun w =>
  let sent := net w ++ [UrlRetrieve url] in
  match transfer_outcome url dest with
  | Delivered c =>
      (mkWorld (<[dest := c]> (files w)) sent (log w), Returned tt)
  | Failed e (Some c) =>
      (mkWorld (<[dest := c]> (files w)) sent (log w), Raised e)
  | Failed e None =>
      (mkWorld (files w) sent (log w), Raised e)
  end.

Definition check_download_integrity (filepath md5_value : string)
  : M StrOrFalse :=
  present ← isfile filepath;
  if present : bool then
    fq_contents ← read_bytes filepath;
    let local_checksum := hexdigest (md5 fq_contents) in
    if negb (String.eqb md5_value local_checksum)
    then mret PyFalse
    else mret (Str local_checksum)
  else
    _ ← logger_warning (filepath +:+ " not found.");
    mret PyFalse.

(** The first block of [retrieve_ftp_file]: [Some v] when it executes
    [return checksum], [None] when control falls through to the
    download (where [local] is still [False]). *)
Definition check_local_copy (ftp_path filepath remote_checksum : string)
  (overwrite : bool) : M (option StrOrFalse) :=
  if negb overwrite then
    present ← isfile filepath;
    if present : bool then
      checksum ← check_download_integrity filepath remote_checksum;
      if truthy checksum then
        _ ← logger_info ("Valid file found. Skipping download of file: "
                         +:+ "ftp://" +:+ ftp_path +:+ " to " +:+ filepath);
        mret (Some checksum)
      else
        _ ← logger_warning ("Local file found but invalid checksum."
                            +:+ " Downloading again: "
                            +:+ "ftp://" +:+ ftp_path +:+ " to " +:+ filepath);
        mret None
    else mret None
  else mret None.

Definition retrieve_ftp_file (ftp_path filepath remote_checksum : string)
  (overwrite : bool) : M StrOrFalse :=
  early ← check_local_copy ftp_path filepath remote_checksum overwrite;
  match early with
  | Some checksum => mret checksum
  | None =>
      try_except
        (_ ← urlretrieve ("ftp://" +:+ ftp_path) filepath;
         checksum ← check_download_integrity filepath remote_checksum;
         mret checksum)
        is_URLError
        (_ ← logger_warning ("Issue with urlretrieve for "
                             +:+ "download of file:"
                             +:+ "ftp://" +:+ ftp_path +:+ " to " +:+ filepath);
         present ← isfile ftp_path;
         _ ← (if present : bool then remove ftp_path else mret tt);
         mret PyFalse)
  end.

(** [n] calls in a row with the same arguments; the world after the
    last one. *)
Fixpoint repeat_retrieve (n : nat)
  (ftp_path filepath remote_checksum : string) (overwrite : bool)
  (w : World) : World :=
  match n with
  | O => w
  | S n' =>
      repeat_retrieve n' ftp_path filepath remote_checksum overwrite
        (fst (retrieve_ftp_file ftp_path filepath remote_checksum overwrite w))
  end.

End Downloader.

End Download.

(* ===================================================================== *)
(** ** DocumentTokenizer *)
(* ===================================================================== *)

Module Tokenizer.

Definition nl : string := String "010"%char EmptyString.
Definition tab : string := String "009"%char EmptyString.
Definition dquote : string := String "034"%char EmptyString.

(** The alternatives of [r"\; |\, |\. | |\n|\t"], in order. *)
Definition pdf_delims : list string :=
  ["; "; ", "; ". "; " "; nl; tab].

(** The alternatives of the pattern for text and HTML, in order:
    semicolon, comma, period, space, newline, tab, the angle brackets,
    slash, double quote and single quote. *)
Definition text_delims : list string :=
  [";"; ","; "."; " "; nl; tab; "<"; ">"; "/"; dquote; "'"].

(** A page of a parsed PDF.  The page class of PyPDF2 has the method
    [extractText] and no other text-extraction method. *)
Record PageObject := { page_text : string }.

(** [page.<method>()] *)
Definition call_page (page : PageObject) (method : string) : M string :=
  if String.eqb method "extractText" then mret (page_text page)
  else raise (AttributeError method).

Section DocumentTokenizer.

(** The web server's answer to a GET, by URL. *)
Variable http_server : string -> HttpResponse.

(** [urllib.request.urlretrieve(url)]: the name of the temporary file
    and the content stored in it; [None] when the retrieval raises. *)
Variable http_download : string -> option (string * list byte).

(** [PyPDF2.PdfFileReader(f)] on the content of [f]: the pages, or
    [None] when the content is not a readable PDF. *)
Variable pdf_reader : list byte -> option (list PageObject).

(** Decoding of a file opened in text mode; [None] when it fails. *)
Variable decode : list byte -> option string.

Definition urlretrieve_tmp (url : string) : M string := fun w =>
  let sent := net w ++ [UrlRetrieve url] in
  match http_download url with
  | Some (file_name, c) =>
      (mkWorld (<[file_name := c]> (files w)) sent (log w), Returned file_name)
  | None => (mkWorld (files w) sent (log w), Raised URLError)
  end.

(** [PyPDF2.PdfFileReader(open(p, "rb"))] *)
Definition PdfFileReader (p : string) : M (list PageObject) :=
  raw ← read_bytes p;
  match pdf_reader raw with
  | Some pages => mret pages
  | None => raise PdfReadError
  end.

(** [f = open(p, "r"); s = f.read(); f.close()] *)
Definition read_text (p : string) : M string :=
  raw ← read_bytes p;
  match decode raw with
  | Some s => mret s
  | None => raise UnicodeDecodeError
  end.

(** [for i in range(document.numPages):
       full_text += document.getPage(i).<method>()] *)
Definition extract_pages (document : list PageObject) (method : string)
  (full_text : string) : M string :=
  for_each document
    (fun full_text page_to_print =>
       t ← call_page page_to_print method;
       mret (full_text +:+ t))
    full_text.

Definition parse_document (filepath : string) : M (list string) :=
  let full_text := EmptyString in
  let tokens : list string := [] in
  let filepath :=
    if String.eqb (PyStr.slice filepath (Some 0) (Some 3)) "10.1"
    then "https://doi.org/" +:+ filepath
    else filepath in
  if String.eqb (PyStr.slice filepath (Some 0) (Some 3)) "htt" then
    request ← requests_get http_server filepath;
    if fst request =? 200 then
      if String.eqb (PyStr.slice filepath (Some (-3)) None) "pdf" then
        file_name ← urlretrieve_tmp filepath;
        document ← PdfFileReader file_name;
        full_text ← extract_pages document "extractText" full_text;
        mret (PyStr.re_split pdf_delims full_text)
      else
        let full_text := snd request in
        mret (PyStr.re_split text_delims full_text)
    else mret tokens
  else
    if String.eqb (PyStr.slice filepath (Some (-3)) None) "pdf" then
      document ← PdfFileReader filepath;
      full_text ← extract_pages document "extractTexit" full_text;
      mret (PyStr.re_split pdf_delims full_text)
    else
      full_text ← read_text filepath;
      mret (PyStr.re_split text_delims full_text).

End DocumentTokenizer.

End Tokenizer.

(* ===================================================================== *)
(** ** AccessionScanner *)
(* ===================================================================== *)

Module Scanner.

(** A Python [dict] with string keys and values: the items in insertion
    order.  Assigning to a key that is present replaces its value in
    place; a new key goes to the end. *)
Definition dict := list (string * string).

Fixpoint dict_set (k v : string) (d : dict) : dict :=
  match d with
  | [] => [(k, v)]
  | (k', v') :: d' =>
      if String.eqb k k' then (k', v) :: d' else (k', v') :: dict_set k v d'
  end.

Fixpoint dict_get (k : string) (d : dict) : option string :=
  match d with
  | [] => None
  | (k', v') :: d' => if String.eqb k k' then Some v' else dict_get k d'
  end.

(** [list(d.values())] *)
Definition dict_values (d : dict) : list string := map snd d.

Definition default_stems : list string := ["PRJEB"; "PRJNA"; "ERP"; "SRP"].

(** [{stem: t for stem in proj_id_stems for t in tokens if stem in t}] *)
Definition stem_tokens (tokens proj_id_stems : list string) : dict :=
  fold_left
    (fun d stem =>
       fold_left
         (fun d t => if PyStr.contains stem t then dict_set stem t d else d)
         tokens d)
    proj_id_stems [].

Definition ebi_url_of (test_study : string) : string :=
  "https://www.ebi.ac.uk/ena/browser/view/" +:+ test_study +:+ "&display=xml".

Definition not_exist_warning (test_study ebi_url : string) : string :=
  "Found stem: " +:+ test_study +:+ " in " +:+ test_study
  +:+ " but EBI project URL " +:+ ebi_url +:+ " does not exist.".

Section AccessionScanner.

(** The answer of www.ebi.ac.uk to a GET, by URL. *)
Variable ebi_server : string -> HttpResponse.

(** The body of the inner loop, for token [t] and one [stem];
    [found_ebi_ids] is the list the loop appends to. *)
Definition scan_stem (t : string) (found_ebi_ids : list string)
  (stem : string) : M (list string) :=
  let start := PyStr.find t stem in
  if negb (start =? -1) && (PyStr.len t >=? start + PyStr.len stem + 1) then
    match PyStr.item t (start + PyStr.len stem) with
    | None => raise IndexError
    | Some c =>
        let next_char := String c EmptyString in
        if PyStr.isnumeric next_char then
          let test_study := PyStr.slice t (Some start) None in
          let ebi_url := ebi_url_of test_study in
          request2 ← requests_get ebi_server ebi_url;
          let invalid := true in
          let '(found_ebi_ids, invalid) :=
            if fst request2 =? 200 then
              if PyStr.len test_study >=? 6 then
                let found_study :=
                  PyStr.strip_chars "-"
                    (PyStr.strip_chars "."
                       (PyStr.strip_chars "," (PyStr.strip test_study))) in
                (found_ebi_ids ++ [found_study], false)
              else (found_ebi_ids, invalid)
            else (found_ebi_ids, invalid) in
          _ ← (if invalid : bool
               then logger_warning (not_exist_warning test_study ebi_url)
               else mret tt);
          mret found_ebi_ids
        else mret found_ebi_ids
    end
  else mret found_ebi_ids.

Definition scan_token (proj_id_stems : list string)
  (found_ebi_ids : list string) (t : string) : M (list string) :=
  for_each proj_id_stems (scan_stem t) found_ebi_ids.

Definition scrape_ebi_ids (tokens proj_id_stems : list string)
  : M (list string) :=
  let found_ebi_ids : list string := [] in
  let potential_tokens := dict_values (stem_tokens tokens proj_id_stems) in
  for_each potential_tokens (scan_token proj_id_stems) found_ebi_ids.

End AccessionScanner.

End Scanner.

(* ===================================================================== *)
(** ** Vocabulary of the specification *)
(* ===================================================================== *)

Module Spec.

(** [i] is the index of the first occurrence of [sub] in [s]. *)
Definition first_occurrence (sub s : string) (i : nat) : Prop :=
  PyStr.startswith sub (PyStr.drop i s) = true /\
  forall j, (j < i)%nat -> PyStr.startswith sub (PyStr.drop j s) = false.

(** The most recently seen token that contains [stem]: the last one in
    sequence order. *)
Definition last_match (stem : string) (tokens : list string) : option string :=
  last (List.filter (PyStr.contains stem) tokens).

(** One round of the comprehension's outer loop, in closed form: [stem]
    is assigned its last match, if it has one. *)
Definition assign_last_match (tokens : list string) (d : Scanner.dict)
  (stem : string) : Scanner.dict :=
  match last_match stem tokens with
  | Some t => Scanner.dict_set stem t d
  | None => d
  end.

(** How often [x] occurs in [l]. *)
Definition occurrences (x : string) (l : list string) : nat :=
  length (List.filter (String.eqb x) l).

(** A string of lower-case hexadecimal digits. *)
Fixpoint lower_hex (s : string) : bool :=
  match s with
  | EmptyString => true
  | String c s' => PyStr.char_in c "0123456789abcdef" && lower_hex s'
  end.

(** The stripping chain [scrape_ebi_ids] applies to an accepted
    candidate: white space, then [","], then ["."], then ["-"], each at
    both ends. *)
Definition stripped (test_study : string) : string :=
  PyStr.strip_chars "-"
    (PyStr.strip_chars "." (PyStr.strip_chars "," (PyStr.strip test_study))).

(** The world with one more request on the network log. *)
Definition sent (w : World) (ev : NetEvent) : World :=
  mkWorld (files w) (net w ++ [ev]) (log w).

(** The world with one more record in the log. *)
Definition logged (w : World) (lvl : Level) (msg : string) : World :=
  mkWorld (files w) (net w) (log w ++ [(lvl, msg)]).

End Spec.

(** Worlds and servers for the examples. *)
Module Fixture.

Definition empty_world : World := mkWorld ∅ [] [].

(** A server on which every accession exists. *)
Definition always_200 (url : string) : HttpResponse := Response 200 EmptyString.

(** A server that knows no document. *)
Definition always_404 (url : string) : HttpResponse :=
  Response 404 "Not Found".

(** A digest function for the examples: the length and the sum of the
    bytes, packed into one number. *)
Definition toy_md5 (b : list byte) : N :=
  (N.of_nat (length b) * 65536
   + fold_right (fun x acc => Byte.to_N x + acc) 0 b)%N.

Definition fastq_bytes : list byte := [x40; x72; x31; x0a].

Definition one_page_pdf : list byte := [x25; x50; x44; x46].

Definition toy_pdf_reader (raw : list byte) : option (list Tokenizer.PageObject) :=
  match raw with
  | [x25; x50; x44; x46] =>
      Some [ {| Tokenizer.page_text := "see PRJEB1234, and ERP5678" |} ]
  | _ => None
  end.

Definition latin1 (raw : list byte) : option string :=
  Some (String.string_of_list_byte raw).

(** An FTP server that cannot be reached. *)
Definition ftp_down (url : string) : Download.Transfer :=
  Download.Failed URLError None.

(** An FTP server whose connection breaks after the first byte. *)
Definition ftp_breaks (url : string) : Download.Transfer :=
  Download.Failed URLError (Some [x40]).

(** A world with one downloaded read file. *)
Definition one_file_world : World :=
  mkWorld {[ "reads/r1.fastq" := fastq_bytes ]} [] [].

(** A world where a file happens to sit at the path that equals the
    remote-path string. *)
Definition shadow_world : World :=
  mkWorld {[ "host/r1.fastq" := fastq_bytes ]} [] [].

End Fixture.

(** What one pass of the scanner appends, read off the scanner itself: the
    list [scan_stem] returns when it starts from the empty list. *)
Module Yield.

Section Yield.

Variable ebi_server : string -> HttpResponse.

(** The server answers every request. *)
Definition responsive : Prop := forall url, ebi_server url <> NoResponse.

Definition stem_yield (t stem : string) : list string :=
  match snd (Scanner.scan_stem ebi_server t [] stem Fixture.empty_world) with
  | Returned l => l
  | Raised _ => []
  end.

Definition token_yield (proj_id_stems : list string) (t : string) : list string :=
  flat_map (stem_yield t) proj_id_stems.

End Yield.

End Yield.

(* ===================================================================== *)
(** ** Values and errors of the untyped helpers *)
(* ===================================================================== *)

(** [get_ebi_ids], [load_project_file] and [setup_output_dir] raise
    exceptions of further classes; [Std] embeds the ones above. *)
Inductive PyErr :=
| Std (e : exn)
| KeyError (key : string)
| TypeError
| ValueError.

Inductive Res (A : Type) :=
| Ok (a : A)
| Err (e : PyErr).
Arguments Ok {A} a.
Arguments Err {A} e.

(** A computation on the world that returns or raises one of [PyErr]. *)
Definition E (A : Type) : Type := World -> World * Res A.

#[global] Instance E_ret : MRet E := fun A a w => (w, Ok a).
#[global] Instance E_bind : MBind E := fun A B k m w =>
  match m w with
  | (w', Ok a) => k a w'
  | (w', Err e) => (w', Err e)
  end.

(** A pure step that may raise. *)
Definition pure_step {A} (r : Res A) : E A := fun w => (w, r).

(** A computation of [M], run inside [E]. *)
Definition from_M {A} (m : M A) : E A := fun w =>
  match m w with
  | (w', Returned a) => (w', Ok a)
  | (w', Raised e) => (w', Err (Std e))
  end.

(* ===================================================================== *)
(** ** get_ebi_ids *)
(* ===================================================================== *)

Module Accessions.

(** The values found in the dictionary that [xmltodict] builds from a
    study record, and [False]: [None], strings, lists and dictionaries
    with string keys (the items in order; a key is looked up from the
    front). *)
#[warnings="-register-all"] Inductive PyVal :=
| VNone
| VFalse
| VStr (s : string)
| VList (items : list PyVal)
| VDict (entries : list (string * PyVal)).

Fixpoint entry (k : string) (entries : list (string * PyVal)) : option PyVal :=
  match entries with
  | [] => None
  | (k', v) :: rest => if String.eqb k k' then Some v else entry k rest
  end.

Definition is_str (k : string) (v : PyVal) : bool :=
  match v with
  | VStr s => String.eqb k s
  | _ => false
  end.

(** [k in v] for a string [k]: a key of a dictionary, a substring of a
    string, an element of a list; [None] and [False] are not iterable. *)
Definition py_in (k : string) (v : PyVal) : Res bool :=
  match v with
  | VDict entries => Ok (bool_decide (is_Some (entry k entries)))
  | VStr s => Ok (PyStr.contains k s)
  | VList items => Ok (existsb (is_str k) items)
  | VNone | VFalse => Err TypeError
  end.

(** [v[k]] for a string [k]. *)
Definition getitem (v : PyVal) (k : string) : Res PyVal :=
  match v with
  | VDict entries =>
      match entry k entries with
      | Some x => Ok x
      | None => Err (KeyError k)
      end
  | _ => Err TypeError
  end.

(** [s + v] for a string literal [s]. *)
Definition str_add (s : string) (v : PyVal) : Res string :=
  match v with
  | VStr t => Ok (s +:+ t)
  | _ => Err TypeError
  end.

(** [[p for p in items if k in p]] *)
Fixpoint keep_containing (k : string) (items : list PyVal) : Res (list PyVal) :=
  match items with
  | [] => Ok []
  | p :: rest =>
      match py_in k p with
      | Err e => Err e
      | Ok b =>
          match keep_containing k rest with
          | Err e => Err e
          | Ok kept => Ok (if b then p :: kept else kept)
          end
      end
  end.

(** ["".join(items)] *)
Fixpoint join_empty (items : list PyVal) : Res string :=
  match items with
  | [] => Ok EmptyString
  | VStr s :: rest =>
      match join_empty rest with
      | Ok t => Ok (s +:+ t)
      | Err e => Err e
      end
  | _ :: _ => Err TypeError
  end.

Definition get_ebi_ids (study_xml_dict : PyVal) : E (PyVal * PyVal) :=
  let study_accession := VFalse in
  let proj_accession := VFalse in
  has_study ← pure_step (py_in "STUDY_SET" study_xml_dict);
  if has_study : bool then
    study_set ← pure_step (getitem study_xml_dict "STUDY_SET");
    study ← pure_step (getitem study_set "STUDY");
    id_dict ← pure_step (getitem study "IDENTIFIERS");
    study_accession ← pure_step (getitem id_dict "PRIMARY_ID");
    has_secondary ← pure_step (py_in "SECONDARY_ID" id_dict);
    if has_secondary : bool then
      proj_accession ← pure_step (getitem id_dict "SECONDARY_ID");
      match proj_accession with
      | VList items =>
          kept ← pure_step (keep_containing "PRJ" items);
          joined ← pure_step (join_empty kept);
          mret (study_accession, VStr joined)
      | _ => mret (study_accession, proj_accession)
      end
    else
      msg ← pure_step (str_add "No project ID for study: " study_accession);
      _ ← from_M (logger_warning msg);
      let proj_accession := study_accession in
      mret (study_accession, proj_accession)
  else
    has_project ← pure_step (py_in "PROJECT_SET" study_xml_dict);
    if has_project : bool then
      project_set ← pure_step (getitem study_xml_dict "PROJECT_SET");
      project ← pure_step (getitem project_set "PROJECT");
      id_dict ← pure_step (getitem project "IDENTIFIERS");
      proj_accession ← pure_step (getitem id_dict "PRIMARY_ID");
      has_secondary ← pure_step (py_in "SECONDARY_ID" id_dict);
      if has_secondary : bool then
        study_accession ← pure_step (getitem id_dict "SECONDARY_ID");
        mret (study_accession, proj_accession)
      else
        msg ← pure_step (str_add "No study ID for project: " proj_accession);
        _ ← from_M (logger_warning msg);
        mret (study_accession, proj_accession)
    else
      _ ← from_M (logger_warning "No study information found.");
      mret (study_accession, proj_accession).

(** The record [{top: {inner: {"IDENTIFIERS": ids}}}]. *)
Definition record_of (top inner : string) (ids : list (string * PyVal)) : PyVal :=
  VDict [(top, VDict [(inner, VDict [("IDENTIFIERS", VDict ids)])])].

(** The identifiers of the record under [top] and [inner] are the
    dictionary [ids]. *)
Definition identifiers_at (top inner : string)
  (entries ids : list (string * PyVal)) : Prop :=
  exists e1 e2,
    entry top entries = Some (VDict e1) /\
    entry inner e1 = Some (VDict e2) /\
    entry "IDENTIFIERS" e2 = Some (VDict ids).

(** The strings of a list of values. *)
Definition strs (l : list string) : list PyVal := map VStr l.

(** The strings of [l] that contain [k], concatenated in order. *)
Definition concat_containing (k : string) (l : list string) : string :=
  fold_right String.append EmptyString (List.filter (PyStr.contains k) l).

End Accessions.

(* ===================================================================== *)
(** ** setup_output_dir *)
(* ===================================================================== *)

Module OutputDir.

Section OutputDir.

(** The directory tree, as far as the function looks at it:
    [os.path.exists] and [os.makedirs], which gives the new tree or
    raises. *)
Variable Tree : Type.
Variable path_exists : Tree -> string -> bool.
Variable makedirs : Tree -> string -> Tree * Res unit.

Definition setup_output_dir (output_dir : string) (tree : Tree)
  : Tree * Res string :=
  match PyStr.item output_dir (-1) with
  | None => (tree, Err (Std IndexError))
  | Some last =>
      let output_dir :=
        if negb (String.eqb (String last EmptyString) "/")
        then output_dir +:+ "/"
        else output_dir in
      if negb (path_exists tree output_dir) then
        match makedirs tree output_dir with
        | (tree', Ok _) => (tree', Ok output_dir)
        | (tree', Err e) => (tree', Err e)
        end
      else (tree, Ok output_dir)
  end.

End OutputDir.

(** A tree for the examples: the set of paths that exist; [makedirs]
    adds the path, and fails on the path ["/proc/x/"]. *)
Definition set_exists (tree : gset string) (p : string) : bool :=
  bool_decide (p ∈ tree).

Definition set_makedirs (tree : gset string) (p : string)
  : gset string * Res unit :=
  if String.eqb p "/proc/x/" then (tree, Err (Std OSError))
  else ({[ p ]} ∪ tree, Ok tt).

End OutputDir.

(* ===================================================================== *)
(** ** load_project_file *)
(* ===================================================================== *)

Module Project.

(** A cell of a data frame: a string, or something that is not a string
    (a missing value, a number). *)
Inductive Cell :=
| CStr (s : string)
| CNaN
| CNum (z : Z).

#[global] Instance Cell_eq_dec : EqDecision Cell.
Proof. solve_decision. Defined.

(** A column label: a name, or a position when the file has no header. *)
Inductive Label :=
| LName (s : string)
| LPos (n : nat).

(** A data frame: its columns in order, each with its label and its
    cells from top to bottom. *)
Definition DataFrame := list (Label * list Cell).

Definition is_name (name : string) (l : Label) : bool :=
  match l with
  | LName s => String.eqb name s
  | LPos _ => false
  end.

(** [name in df.columns] *)
Definition has_column (name : string) (df : DataFrame) : bool :=
  existsb (fun col => is_name name (fst col)) df.

(** [df.columns = [name]]: the number of labels has to be the number of
    columns. *)
Definition set_columns_1 (name : string) (df : DataFrame) : Res DataFrame :=
  match df with
  | [(_, cells)] => Ok [(LName name, cells)]
  | _ => Err ValueError
  end.

(** [df[name]] *)
Fixpoint column (name : string) (df : DataFrame) : Res (list Cell) :=
  match df with
  | [] => Err (KeyError name)
  | (l, cells) :: rest => if is_name name l then Ok cells else column name rest
  end.

(** [Series.unique()]: the distinct values in order of first appearance.
    [seen] holds the values met so far. *)
Fixpoint unique_go (seen cells : list Cell) : list Cell :=
  match cells with
  | [] => []
  | c :: rest =>
      if bool_decide (c ∈ seen) then unique_go seen rest
      else c :: unique_go (c :: seen) rest
  end.

Definition unique (cells : list Cell) : list Cell := unique_go [] cells.

(** [[x.strip() for x in add_list]] *)
Fixpoint strip_all (add_list : list Cell) : Res (list string) :=
  match add_list with
  | [] => Ok []
  | CStr s :: rest =>
      match strip_all rest with
      | Ok l => Ok (PyStr.strip s :: l)
      | Err e => Err e
      end
  | _ :: _ => Err (Std (AttributeError "strip"))
  end.

Section ProjectFile.

(** [pd.read_csv(filepath, sep="\t", header=0)] when [header] is [true],
    [pd.read_csv(filepath, sep="\t", header=None)] when it is [false]. *)
Variable read_csv : string -> bool -> Res DataFrame.

Definition load_project_file (filepath : string) : Res (list string) :=
  match read_csv filepath true with
  | Err e => Err e
  | Ok proj_df =>
      let renamed :=
        if negb (has_column "study_id" proj_df) then
          match read_csv filepath false with
          | Err e => Err e
          | Ok proj_df => set_columns_1 "study_id" proj_df
          end
        else Ok proj_df in
      match renamed with
      | Err e => Err e
      | Ok proj_df =>
          match column "study_id" proj_df with
          | Err e => Err e
          | Ok cells =>
              let add_list := unique cells in
              strip_all add_list
          end
      end
  end.

End ProjectFile.

(** The string cells of a column. *)
Definition cstrs (l : list string) : list Cell := map CStr l.

(** A reader for the examples: a file with a [study_id] column and two
    spellings of one accession, a headerless list of accessions, a file
    with an empty field, and a file with two unrelated columns. *)
Definition toy_read_csv (filepath : string) (header : bool) : Res DataFrame :=
  if String.eqb filepath "search.tsv" then
    if header then
      Ok [(LName "study_id", [CStr "ERP1 "; CStr "ERP1"; CStr "ERP1 "; CStr "SRP2"]);
          (LName "title", [CStr "a"; CStr "b"; CStr "c"; CStr "d"])]
    else Err ValueError
  else if String.eqb filepath "ids.txt" then
    if header then Ok [(LName "PRJEB1", [CStr "PRJEB2"; CStr "PRJEB1"])]
    else Ok [(LPos 0, [CStr "PRJEB1"; CStr "PRJEB2"; CStr "PRJEB1"])]
  else if String.eqb filepath "gaps.tsv" then
    Ok [(LName "study_id", [CStr "ERP1"; CNaN])]
  else if String.eqb filepath "pairs.tsv" then
    if header then Ok [(LName "run", [CStr "r2"]); (LName "study", [CStr "ERP2"])]
    else Ok [(LPos 0, [CStr "run"; CStr "r2"]); (LPos 1, [CStr "study"; CStr "ERP2"])]
  else Err (Std FileNotFoundError).

End Project.

(* ===================================================================== *)
(** ** Further vocabulary *)
(* ===================================================================== *)

Module Shape.

(** No character of [chars] occurs in [tok]. *)
Definition free_of (chars tok : string) : Prop :=
  forall c, PyStr.char_in c chars = true -> PyStr.char_in c tok = false.

(** [s] ends in a slash. *)
Definition ends_in_slash (s : string) : Prop :=
  PyStr.item s (-1) = Some "/"%char.

(** The text of the pages, in order. *)
Definition pages_text (pages : list Tokenizer.PageObject) : string :=
  fold_right (fun p acc => Tokenizer.page_text p +:+ acc) EmptyString pages.

(** The eleven delimiter characters of text and HTML documents. *)
Definition text_delim_chars : string :=
  ";,. " +:+ Tokenizer.nl +:+ Tokenizer.tab +:+ "<>/" +:+ Tokenizer.dquote +:+ "'".

(** The white space that ends a token of a PDF. *)
Definition pdf_space_chars : string := " " +:+ Tokenizer.nl +:+ Tokenizer.tab.

(** A character that none of the four strips of the scanner removes. *)
Definition kept_char (c : ascii) : bool :=
  negb (PyStr.isspace_char c) && negb (PyStr.char_in c ",.-").

(** [a] is the stripped form of a candidate of at least six characters
    that was cut from a token of [tokens] at the first occurrence of a
    stem of [stems], before a numeric character, and to which the server
    answered 200. *)
Definition confirmed (server : string -> HttpResponse)
  (tokens stems : list string) (a : string) : Prop :=
  exists t stem i c body,
    t ∈ tokens /\ stem ∈ stems /\
    Spec.first_occurrence stem t i /\
    String.get (i + String.length stem) t = Some c /\
    PyStr.isnumeric_char c = true /\
    server (Scanner.ebi_url_of (PyStr.drop i t)) = Response 200 body /\
    (6 <= String.length (PyStr.drop i t))%nat /\
    a = Spec.stripped (PyStr.drop i t).

(** An outcome that is a result or the exception of a failed request. *)
Definition returned_or_request_failed {A} (o : Outcome A) : Prop :=
  match o with
  | Returned _ => True
  | Raised e => e = RequestException
  end.

(** The download of [retrieve_ftp_file] is attempted: overwriting is
    asked for, or no valid local copy is there. *)
Definition download_due (md5 : list byte -> N)
  (filepath remote_checksum : string) (overwrite : bool) (w : World) : Prop :=
  overwrite = true \/
  forall c, files w !! filepath = Some c ->
            Download.hexdigest (md5 c) <> remote_checksum.

(** A file system in which every destination can be created. *)
Definition any_dir (dest : string) : option Download.OpenError := None.

(** A file system in which the directory of the destination is
    missing. *)
Definition no_dir (dest : string) : option Download.OpenError :=
  Some Download.NoSuchDirectory.

(** An FTP server that delivers the read file of the examples. *)
Definition ftp_good (url : string) : Download.Transfer :=
  Download.Delivered Fixture.fastq_bytes.

(** An FTP server whose connection times out in a way urllib does not
    wrap. *)
Definition ftp_timeout (url : string) : Download.Transfer :=
  Download.Failed OSError (Some [x40]).

(** A web server with one HTML page. *)
Definition one_page_site (url : string) : HttpResponse :=
  Response 200 "<p>PRJEB1234, ERP5678</p>".

End Shape.

(* ===================================================================== *)
(** ** Facts about the string operations *)
(* ===================================================================== *)

Section PyStrFacts.

Import PyStr.

Lemma length_take n s : (String.length (take n s) <= n)%nat.
Proof.
  revert s; induction n as [|n IH]; intros [|c s]; simpl; try lia.
  specialize (IH s); lia.
Qed.

Lemma length_drop n s : String.length (drop n s) = (String.length s - n)%nat.
Proof.
  revert s; induction n as [|n IH]; intros [|c s]; simpl; auto with lia.
Qed.

Lemma take_all n s : (String.length s <= n)%nat -> take n s = s.
Proof.
  revert n; induction s as [|c s IH]; intros [|n] H; simpl in *;
    try reflexivity; try lia.
  f_equal; apply IH; lia.
Qed.

Lemma drop_succ n c s : drop (S n) (String c s) = drop n s.
Proof. reflexivity. Qed.

(** A slice [s[0:3]] has at most three characters. *)
Lemma length_slice_0_3 s :
  (String.length (slice s (Some 0%Z) (Some 3%Z)) <= 3)%nat.
Proof.
  unfold slice. etransitivity; [apply length_take|].
  unfold clamp; simpl. unfold len. lia.
Qed.

(** [s[i:]] for an index inside the string. *)
Lemma slice_from_nat s i :
  (i <= String.length s)%nat -> slice s (Some (Z.of_nat i)) None = drop i s.
Proof.
  intros Hi. unfold slice, clamp, len.
  destruct (Z.ltb_spec (Z.of_nat i) 0) as [?|_]; [lia|].
  rewrite Z.min_r by lia. rewrite Nat2Z.id.
  apply take_all. rewrite length_drop. lia.
Qed.

Lemma get_is_Some n s : (n < String.length s)%nat -> is_Some (String.get n s).
Proof.
  revert n; induction s as [|c s IH]; intros n H; simpl in *; [lia|].
  destruct n as [|n]; [eauto|]. apply IH; lia.
Qed.

Lemma get_Some_lt n s c : String.get n s = Some c -> (n < String.length s)%nat.
Proof.
  revert n; induction s as [|a s IH]; intros n H; simpl in *; [discriminate|].
  destruct n as [|n]; [lia|]. apply IH in H; lia.
Qed.

(** [s[i]] for a natural index is [String.get]. *)
Lemma item_nat s n : item s (Z.of_nat n) = String.get n s.
Proof.
  unfold item, len.
  destruct (Z.ltb_spec (Z.of_nat n) 0) as [?|_]; [lia|].
  destruct (Z.leb_spec 0 (Z.of_nat n)) as [_|?]; [|lia].
  destruct (Z.ltb_spec (Z.of_nat n) (Z.of_nat (String.length s))) as [H|H]; simpl.
  - by rewrite Nat2Z.id.
  - destruct (String.get n s) eqn:E; [|done].
    apply get_Some_lt in E; lia.
Qed.

Lemma startswith_empty_inv sub : startswith sub EmptyString = true -> sub = EmptyString.
Proof. by destruct sub. Qed.

(** [find] returns the first occurrence, and [-1] exactly when there is
    no occurrence at all. *)
Lemma find_from_spec sub s k :
  (find_from k s sub = -1 /\ forall j, startswith sub (drop j s) = false)
  \/ (exists i, find_from k s sub = k + Z.of_nat i /\ Spec.first_occurrence sub s i
                /\ (i <= String.length s)%nat).
Proof.
  revert k; induction s as [|c s IH]; intros k; simpl.
  - destruct (startswith sub EmptyString) eqn:E.
    + right; exists O; repeat split; [lia|done|intros; lia|simpl; lia].
    + left; split; [done|]. intros [|j]; done.
  - destruct (startswith sub (String c s)) eqn:E.
    + right; exists O; repeat split; [lia|done|intros; lia|lia].
    + destruct (IH (k + 1)) as [[H1 H2]|(i & H1 & [H2 H3] & H4)].
      * left; split; [done|]. intros [|j]; [done|apply H2].
      * right; exists (S i); repeat split; [lia|done| |lia].
        intros [|j] Hj; [done|]. apply H3; lia.
Qed.

Lemma first_occurrence_unique sub s i j :
  Spec.first_occurrence sub s i -> Spec.first_occurrence sub s j -> i = j.
Proof.
  intros [Hi Hi'] [Hj Hj'].
  destruct (Nat.lt_trichotomy i j) as [H|[H|H]]; [|done|].
  - apply Hj' in H; congruence.
  - apply Hi' in H; congruence.
Qed.

Lemma find_first_occurrence sub s i :
  Spec.first_occurrence sub s i ->
  find s sub = Z.of_nat i /\ (i <= String.length s)%nat.
Proof.
  intros Hi. unfold find.
  destruct (find_from_spec sub s 0) as [[_ H]|(j & H1 & H2 & H3)].
  - destruct Hi as [Hi _]; rewrite H in Hi; discriminate.
  - rewrite (first_occurrence_unique _ _ _ _ Hi H2). split; [lia|done].
Qed.

Lemma find_none sub s :
  find s sub = -1 -> forall i, ~ Spec.first_occurrence sub s i.
Proof.
  intros H i Hi. apply find_first_occurrence in Hi as [Hi _]. lia.
Qed.

Lemma contains_find_from sub s k :
  0 <= k -> contains sub s = negb (find_from k s sub =? -1).
Proof.
  revert k; induction s as [|c s IH]; intros k Hk; simpl.
  - destruct (startswith sub EmptyString); simpl; [|done].
    destruct (Z.eqb_spec k (-1)); [lia|done].
  - destruct (startswith sub (String c s)); simpl.
    + destruct (Z.eqb_spec k (-1)); [lia|done].
    + apply IH; lia.
Qed.

(** [sub in s] holds exactly when [s.find(sub)] is not [-1]. *)
Lemma contains_find sub s : contains sub s = negb (find s sub =? -1).
Proof. apply contains_find_from; lia. Qed.

End PyStrFacts.

(** Unfolding of the monad operations, so that a computation reduces on a
    given world. *)
Ltac unfold_M :=
  unfold mbind, M_bind, mret, M_ret, raise, try_except,
    logger_info, logger_warning, isfile, remove, read_bytes, requests_get in *.

Section RunFacts.

Lemma run_bind {A B} (m : M A) (k : A -> M B) w :
  (m ≫= k) w =
    match m w with
    | (w', Returned a) => k a w'
    | (w', Raised e) => (w', Raised e)
    end.
Proof. reflexivity. Qed.

Lemma run_ret {A} (a : A) w : (mret a : M A) w = (w, Returned a).
Proof. reflexivity. Qed.

Lemma run_isfile_present p w c :
  files w !! p = Some c -> isfile p w = (w, Returned true).
Proof.
  intros H. unfold isfile. by rewrite bool_decide_eq_true_2 by eauto.
Qed.

Lemma run_isfile_absent p w :
  files w !! p = None -> isfile p w = (w, Returned false).
Proof.
  intros H. unfold isfile. rewrite H.
  by rewrite bool_decide_eq_false_2 by (intros [? ?]; discriminate).
Qed.

Lemma run_read_bytes p w c :
  files w !! p = Some c -> read_bytes p w = (w, Returned c).
Proof. intros H. unfold read_bytes. by rewrite H. Qed.

Lemma run_for_each_nil {A B} (body : B -> A -> M B) acc w :
  for_each [] body acc w = (w, Returned acc).
Proof. reflexivity. Qed.

Lemma run_for_each_cons {A B} x xs (body : B -> A -> M B) acc w :
  for_each (x :: xs) body acc w =
    match body acc x w with
    | (w', Returned acc') => for_each xs body acc' w'
    | (w', Raised e) => (w', Raised e)
    end.
Proof. reflexivity. Qed.

End RunFacts.

(* ===================================================================== *)
(** ** ChecksumValidator and IntegrityVerifiedDownloader: properties *)
(* ===================================================================== *)

Section DownloadFacts.

Import Download.

Variable md5 : list byte -> N.
Variable ftp_server : string -> Transfer.
Variable open_wb : string -> option OpenError.

Lemma hex_digit_lower n :
  (n < 16)%N -> PyStr.char_in (hex_digit n) "0123456789abcdef" = true.
Proof.
  intros H. unfold hex_digit.
  assert (Hm : (N.to_nat n < 16)%nat) by lia.
  revert Hm; generalize (N.to_nat n) as m; intros m Hm.
  do 16 (destruct m as [|m]; [reflexivity|]). lia.
Qed.

Lemma hex_digits_length k d acc :
  String.length (hex_digits k d acc) = (k + String.length acc)%nat.
Proof.
  revert d acc; induction k as [|k IH]; intros d acc; simpl; [done|].
  rewrite IH; simpl; lia.
Qed.

Lemma hex_digits_lower k d acc :
  Spec.lower_hex acc = true -> Spec.lower_hex (hex_digits k d acc) = true.
Proof.
  revert d acc; induction k as [|k IH]; intros d acc Hacc; simpl; [done|].
  apply IH. cbn [Spec.lower_hex]. rewrite Hacc, hex_digit_lower; [done|].
  apply N.mod_lt; lia.
Qed.

Lemma hexdigest_length d : String.length (hexdigest d) = 32%nat.
Proof. unfold hexdigest. by rewrite hex_digits_length. Qed.

Lemma hexdigest_lower d : Spec.lower_hex (hexdigest d) = true.
Proof. unfold hexdigest. by apply hex_digits_lower. Qed.

(** A digest string is never empty, so it is a true value. *)
Lemma hexdigest_truthy d : truthy (Str (hexdigest d)) = true.
Proof.
  pose proof (hexdigest_length d) as H.
  destruct (hexdigest d); [discriminate|done].
Qed.

(** What the validator does on a file that is present. *)
Lemma check_present filepath md5_value w contents :
  files w !! filepath = Some contents ->
  check_download_integrity md5 filepath md5_value w =
    (w, Returned (if String.eqb md5_value (hexdigest (md5 contents))
                  then Str (hexdigest (md5 contents)) else PyFalse)).
Proof.
  intros H. unfold check_download_integrity.
  rewrite run_bind, (run_isfile_present _ _ _ H).
  rewrite run_bind, (run_read_bytes _ _ _ H).
  by destruct (String.eqb md5_value _).
Qed.

(** What the validator does on a file that is absent. *)
Lemma check_absent filepath md5_value w :
  files w !! filepath = None ->
  check_download_integrity md5 filepath md5_value w =
    (Spec.logged w WARNING (filepath +:+ " not found."), Returned PyFalse).
Proof.
  intros H. unfold check_download_integrity.
  by rewrite run_bind, (run_isfile_absent _ _ H).
Qed.

(** C3.  [check_download_integrity] reads the whole file and compares
    the lower-case hexadecimal MD5 digest of its content (32 digits) with
    the expected value: on a match it returns that digest, on a mismatch
    it returns [False], not the digest; the world is left as it was.  For
    a missing file it returns [False] and logs the warning
    "<filepath> not found."; it returns in every case and raises in
    none. *)
Theorem check_download_integrity_correct filepath md5_value w :
  let r := check_download_integrity md5 filepath md5_value w in
  match files w !! filepath with
  | Some contents =>
      let digest := hexdigest (md5 contents) in
      Spec.lower_hex digest = true /\ String.length digest = 32%nat /\
      fst r = w /\
      snd r = if decide (digest = md5_value)
              then Returned (Str digest) else Returned PyFalse
  | None =>
      r = (Spec.logged w WARNING (filepath +:+ " not found."), Returned PyFalse)
  end.
Proof.
  intros r. subst r.
  destruct (files w !! filepath) as [contents|] eqn:E.
  - rewrite (check_present _ _ _ _ E). cbn [fst snd].
    split; [apply hexdigest_lower|]. split; [apply hexdigest_length|].
    split; [done|].
    destruct (String.eqb_spec md5_value (hexdigest (md5 contents))) as [->|Hne].
    + by rewrite decide_True.
    + by rewrite decide_False.
  - by apply check_absent.
Qed.

(** The skip path of the downloader on one call. *)
Lemma retrieve_skip ftp_path filepath w contents :
  files w !! filepath = Some contents ->
  retrieve_ftp_file md5 ftp_server open_wb ftp_path filepath
      (hexdigest (md5 contents)) false w =
    (Spec.logged w INFO
       ("Valid file found. Skipping download of file: "
        +:+ "ftp://" +:+ ftp_path +:+ " to " +:+ filepath),
     Returned (Str (hexdigest (md5 contents)))).
Proof.
  intros H. unfold retrieve_ftp_file, check_local_copy.
  cbn [negb]. rewrite !run_bind, (run_isfile_present _ _ _ H).
  rewrite run_bind, (check_present _ _ _ _ H), String.eqb_refl.
  by rewrite hexdigest_truthy.
Qed.

Lemma repeat_retrieve_skip n ftp_path filepath w contents :
  files w !! filepath = Some contents ->
  let wn := repeat_retrieve md5 ftp_server open_wb n ftp_path filepath
              (hexdigest (md5 contents)) false w in
  files wn = files w /\ net wn = net w.
Proof.
  revert w; induction n as [|n IH]; intros w H; simpl; [done|].
  rewrite (retrieve_skip _ _ _ _ H). cbn [fst].
  destruct (IH (Spec.logged w INFO
       ("Valid file found. Skipping download of file: "
        +:+ "ftp://" +:+ ftp_path +:+ " to " +:+ filepath))) as [H1 H2]; [done|].
  simpl in *. by rewrite H1, H2.
Qed.

(** C1.  With [overwrite=False], a destination file that exists and
    whose MD5 digest equals the expected checksum makes
    [retrieve_ftp_file] return that checksum with nothing sent to the
    network and no file changed; after any number of such calls the next
    one does the same, and the network log is still the one before the
    first call. *)
Theorem retrieve_skips_valid_local_copy
  ftp_path filepath remote_checksum w contents :
  files w !! filepath = Some contents ->
  hexdigest (md5 contents) = remote_checksum ->
  let call := retrieve_ftp_file md5 ftp_server open_wb ftp_path filepath
                remote_checksum false in
  (snd (call w) = Returned (Str remote_checksum) /\
   net (fst (call w)) = net w /\ files (fst (call w)) = files w) /\
  forall n,
    let wn := repeat_retrieve md5 ftp_server open_wb n ftp_path filepath
                remote_checksum false w in
    snd (call wn) = Returned (Str remote_checksum) /\
    net (fst (call wn)) = net w /\ files (fst (call wn)) = files w.
Proof.
  intros H <- call. subst call. split.
  - by rewrite (retrieve_skip _ _ _ _ H).
  - intros n wn.
    destruct (repeat_retrieve_skip n ftp_path filepath w contents H) as [Hf Hn].
    fold wn in Hf, Hn.
    assert (Hwn : files wn !! filepath = Some contents) by (by rewrite Hf).
    rewrite (retrieve_skip _ _ _ _ Hwn). simpl. by rewrite Hf, Hn.
Qed.

Lemma run_urlretrieve_failed url dest w e written :
  transfer_outcome ftp_server open_wb url dest = Failed e written ->
  urlretrieve ftp_server open_wb url dest w =
    (mkWorld (match written with
              | Some c => <[dest := c]> (files w)
              | None => files w
              end) (net w ++ [UrlRetrieve url]) (log w), Raised e).
Proof. intros H. unfold urlretrieve. rewrite H. by destruct written. Qed.

(** The first block falls through to the download when overwriting is
    asked for or no valid local copy exists; it only ever adds to the
    log. *)
Lemma check_local_copy_falls_through
  ftp_path filepath remote_checksum overwrite w :
  (overwrite = true \/
   forall c, files w !! filepath = Some c -> hexdigest (md5 c) <> remote_checksum) ->
  exists earlier,
    check_local_copy md5 ftp_path filepath remote_checksum overwrite w =
      (mkWorld (files w) (net w) (log w ++ earlier), Returned None).
Proof.
  intros H. unfold check_local_copy.
  destruct overwrite; cbn [negb].
  { exists []. rewrite app_nil_r. by destruct w. }
  destruct H as [?|H]; [discriminate|].
  rewrite run_bind.
  destruct (files w !! filepath) as [c|] eqn:E.
  - rewrite (run_isfile_present _ _ _ E).
    rewrite run_bind, (check_present _ _ _ _ E).
    destruct (String.eqb_spec remote_checksum (hexdigest (md5 c))) as [->|Hne].
    { by destruct (H c eq_refl). }
    cbn [truthy]. unfold_M. simpl. eauto.
  - rewrite (run_isfile_absent _ _ E).
    exists []. rewrite app_nil_r. by destruct w.
Qed.

(** The whole run of the downloader when the transfer raises
    [URLError]. *)
Lemma retrieve_failure_run
  ftp_path filepath remote_checksum overwrite w written :
  (overwrite = true \/
   forall c, files w !! filepath = Some c -> hexdigest (md5 c) <> remote_checksum) ->
  transfer_outcome ftp_server open_wb ("ftp://" +:+ ftp_path) filepath
    = Failed URLError written ->
  exists earlier,
    retrieve_ftp_file md5 ftp_server open_wb ftp_path filepath
      remote_checksum overwrite w =
    (mkWorld
       (delete ftp_path
          (match written with
           | Some c => <[filepath := c]> (files w)
           | None => files w
           end))
       (net w ++ [UrlRetrieve ("ftp://" +:+ ftp_path)])
       (log w ++ earlier ++
        [(WARNING, "Issue with urlretrieve for " +:+ "download of file:"
                   +:+ "ftp://" +:+ ftp_path +:+ " to " +:+ filepath)]),
     Returned PyFalse).
Proof.
  intros Hdl Hsrv. unfold retrieve_ftp_file.
  destruct (check_local_copy_falls_through ftp_path filepath remote_checksum
              overwrite w Hdl) as [earlier Hearly].
  exists earlier.
  rewrite run_bind, Hearly.
  unfold try_except.
  rewrite run_bind, (run_urlretrieve_failed _ _ _ _ _ Hsrv).
  cbn [files net log is_URLError].
  set (fs := match written with
             | Some c => <[filepath := c]> (files w)
             | None => files w
             end).
  rewrite run_bind. unfold logger_warning at 1. cbn [files net log].
  rewrite run_bind.
  match goal with |- context [isfile ftp_path ?w1] => set (w' := w1) end.
  assert (Hw' : files w' = fs) by done.
  destruct (fs !! ftp_path) as [c|] eqn:E.
  - rewrite (run_isfile_present ftp_path w' c) by (by rewrite Hw').
    rewrite run_bind. unfold remove. rewrite Hw', E, run_ret.
    subst w'; cbn [files net log]. by rewrite <- app_assoc.
  - rewrite (run_isfile_absent ftp_path w') by (by rewrite Hw').
    rewrite run_bind, !run_ret.
    subst w'; cbn [files net log]. rewrite (delete_id _ _ E).
    by rewrite <- app_assoc.
Qed.

(** The handled case.  When [urlretrieve] raises a [URLError], the
    exception does not reach the caller: the function returns [False];
    the file named by the remote-path string [ftp_path] is removed if
    there is one (the destination keeps whatever part of the file was
    written); and the last log record is the warning that names the ftp
    URL and the destination. *)
Theorem retrieve_transport_failure_contained
  ftp_path filepath remote_checksum overwrite w written :
  (overwrite = true \/
   forall c, files w !! filepath = Some c -> hexdigest (md5 c) <> remote_checksum) ->
  transfer_outcome ftp_server open_wb ("ftp://" +:+ ftp_path) filepath
    = Failed URLError written ->
  let r := retrieve_ftp_file md5 ftp_server open_wb ftp_path filepath
             remote_checksum overwrite w in
  snd r = Returned PyFalse /\
  net (fst r) = net w ++ [UrlRetrieve ("ftp://" +:+ ftp_path)] /\
  files (fst r) =
    delete ftp_path
      (match written with
       | Some c => <[filepath := c]> (files w)
       | None => files w
       end) /\
  exists earlier,
    log (fst r) =
      log w ++ earlier ++
      [(WARNING, "Issue with urlretrieve for " +:+ "download of file:"
                 +:+ "ftp://" +:+ ftp_path +:+ " to " +:+ filepath)].
Proof.
  intros Hdl Hsrv r. subst r.
  destruct (retrieve_failure_run ftp_path filepath remote_checksum overwrite
              w written Hdl Hsrv) as [earlier ->].
  cbn [fst snd files net log]. split_and!; try done. by exists earlier.
Qed.

(** An exception of another class is not caught: it reaches the
    caller. *)
Lemma retrieve_other_failure_propagates ftp_path filepath remote_checksum w written :
  transfer_outcome ftp_server open_wb ("ftp://" +:+ ftp_path) filepath
    = Failed OSError written ->
  snd (retrieve_ftp_file md5 ftp_server open_wb ftp_path filepath remote_checksum true w)
    = Raised OSError.
Proof.
  intros Hsrv. unfold retrieve_ftp_file, check_local_copy. cbn [negb].
  rewrite run_bind, run_ret. unfold try_except.
  by rewrite run_bind, (run_urlretrieve_failed _ _ _ _ _ Hsrv).
Qed.

End DownloadFacts.

(* ===================================================================== *)
(** ** DocumentTokenizer: properties *)
(* ===================================================================== *)

Section TokenizerFacts.

Import Tokenizer.

Variable http_server : string -> HttpResponse.
Variable http_download : string -> option (string * list byte).
Variable pdf_reader : list byte -> option (list PageObject).
Variable decode : list byte -> option string.

(** The test [filepath[0:3] == "10.1"] compares at most three characters
    with four: it holds for no reference. *)
Lemma doi_test_never_holds filepath :
  String.eqb (PyStr.slice filepath (Some 0) (Some 3)) "10.1" = false.
Proof.
  apply String.eqb_neq. intros H.
  pose proof (length_slice_0_3 filepath) as Hlen.
  rewrite H in Hlen. simpl in Hlen. lia.
Qed.

(** A reference that begins with ["htt"] passes the test for a remote
    document. *)
Lemma startswith_htt filepath :
  PyStr.startswith "htt" filepath = true ->
  PyStr.slice filepath (Some 0) (Some 3) = "htt".
Proof.
  destruct filepath as [|a [|b [|c rest]]]; cbn [PyStr.startswith];
    repeat match goal with
      | |- context [Ascii.eqb ?x ?y] =>
          destruct (Ascii.eqb_spec x y) as [<-|]
      end; try discriminate.
  intros _. unfold PyStr.slice, PyStr.clamp, PyStr.len.
  cbn [String.length Z.ltb Z.compare]. rewrite Z.min_r by lia.
  reflexivity.
Qed.

(** With the DOI test dead, [parse_document] is its second
    conditional on the reference it was given. *)
Lemma parse_document_unfold filepath :
  Tokenizer.parse_document http_server http_download pdf_reader decode
      filepath =
    if String.eqb (PyStr.slice filepath (Some 0) (Some 3)) "htt" then
      request ← requests_get http_server filepath;
      if fst request =? 200 then
        if String.eqb (PyStr.slice filepath (Some (-3)) None) "pdf" then
          file_name ← urlretrieve_tmp http_download filepath;
          document ← PdfFileReader pdf_reader file_name;
          full_text ← extract_pages document "extractText" EmptyString;
          mret (PyStr.re_split pdf_delims full_text)
        else
          mret (PyStr.re_split text_delims (snd request))
      else mret []
    else
      if String.eqb (PyStr.slice filepath (Some (-3)) None) "pdf" then
        document ← PdfFileReader pdf_reader filepath;
        full_text ← extract_pages document "extractTexit" EmptyString;
        mret (PyStr.re_split pdf_delims full_text)
      else
        full_text ← read_text decode filepath;
        mret (PyStr.re_split text_delims full_text).
Proof.
  unfold Tokenizer.parse_document. by rewrite doi_test_never_holds.
Qed.

(** C4, at the reference ["10.1000/182"].  The reference is not
    rewritten to ["https://doi.org/10.1000/182"] and nothing is fetched:
    the network log is unchanged, and the reference is opened as a local
    text file named ["10.1000/182"]. *)
Theorem parse_document_doi_not_rewritten w :
  let r := Tokenizer.parse_document http_server http_download pdf_reader decode
      "10.1000/182" w in
  net (fst r) = net w /\
  snd r =
    match files w !! "10.1000/182" with
    | None => Raised FileNotFoundError
    | Some raw =>
        match decode raw with
        | Some full_text => Returned (PyStr.re_split text_delims full_text)
        | None => Raised UnicodeDecodeError
        end
    end.
Proof.
  intros r. subst r. rewrite parse_document_unfold.
  change (String.eqb (PyStr.slice "10.1000/182" (Some 0) (Some 3)) "htt")
    with false.
  change (String.eqb (PyStr.slice "10.1000/182" (Some (-3)) None) "pdf")
    with false.
  cbv iota. unfold read_text. rewrite !run_bind. unfold read_bytes.
  destruct (files w !! "10.1000/182") as [raw|]; [|done].
  by destruct (decode raw).
Qed.

(** C8.  When the reference begins with ["htt"] and the GET answers with
    a status other than 200, [parse_document] returns the empty token
    list; the GET is the only thing it did. *)
Theorem parse_document_non_200 filepath w code body :
  PyStr.startswith "htt" filepath = true ->
  http_server filepath = Response code body ->
  code <> 200 ->
  Tokenizer.parse_document http_server http_download pdf_reader decode
      filepath w = (Spec.sent w (HttpGet filepath), Returned []).
Proof.
  intros Hremote Hresp Hcode. rewrite parse_document_unfold.
  rewrite (startswith_htt _ Hremote). cbn [String.eqb Ascii.eqb Bool.eqb].
  rewrite run_bind. unfold requests_get. rewrite Hresp. cbn [fst].
  destruct (Z.eqb_spec code 200) as [?|_]; [done|]. reflexivity.
Qed.

(** The remote PDF branch: every page is read with [extractText]. *)
Lemma extract_pages_extractText document full_text w :
  extract_pages document "extractText" full_text w =
    (w, Returned (fold_left (fun acc p => acc +:+ page_text p) document full_text)).
Proof.
  revert full_text; induction document as [|p ps IH]; intros full_text; [done|].
  unfold extract_pages in *. rewrite run_for_each_cons.
  rewrite run_bind. unfold call_page. cbn [String.eqb Ascii.eqb Bool.eqb].
  rewrite !run_ret. apply IH.
Qed.

(** The local PDF branch: the first page already fails, because the
    page object has no method [extractTexit]. *)
Lemma extract_pages_extractTexit page pages full_text w :
  extract_pages (page :: pages) "extractTexit" full_text w =
    (w, Raised (AttributeError "extractTexit")).
Proof. reflexivity. Qed.

(** A local PDF with at least one page makes [parse_document] raise
    [AttributeError]. *)
Lemma parse_document_local_pdf_raises filepath w raw page pages :
  String.eqb (PyStr.slice filepath (Some 0) (Some 3)) "htt" = false ->
  String.eqb (PyStr.slice filepath (Some (-3)) None) "pdf" = true ->
  files w !! filepath = Some raw ->
  pdf_reader raw = Some (page :: pages) ->
  Tokenizer.parse_document http_server http_download pdf_reader decode
      filepath w = (w, Raised (AttributeError "extractTexit")).
Proof.
  intros Hlocal Hpdf Hfile Hread. rewrite parse_document_unfold, Hlocal, Hpdf.
  rewrite run_bind. unfold PdfFileReader.
  rewrite run_bind, (run_read_bytes _ _ _ Hfile), Hread, run_ret.
  by rewrite run_bind, extract_pages_extractTexit.
Qed.

End TokenizerFacts.

(** C9, at a one-page PDF.  Fetched from ["https://host/paper.pdf"], the
    document yields the tokens of its page text; the same bytes stored
    locally as ["paper.pdf"] yield no text and no tokens: the call raises
    [AttributeError] for the method name [extractTexit]. *)
Theorem local_pdf_differs_from_remote_pdf :
  let download (url : string) := Some ("/tmp/tmpq1", Fixture.one_page_pdf) in
  let parse :=
    Tokenizer.parse_document Fixture.always_200 download
      Fixture.toy_pdf_reader Fixture.latin1 in
  let local_world :=
    mkWorld {[ "paper.pdf" := Fixture.one_page_pdf ]} [] [] in
  snd (parse "https://host/paper.pdf" Fixture.empty_world)
    = Returned ["see"; "PRJEB1234"; "and"; "ERP5678"] /\
  snd (parse "paper.pdf" local_world)
    = Raised (AttributeError "extractTexit").
Proof. split; vm_compute; reflexivity. Qed.


(* ===================================================================== *)
(** ** AccessionScanner: the stem-to-token dictionary *)
(* ===================================================================== *)

Section DictFacts.

Import Scanner.

Lemma dict_get_set_eq k v d : dict_get k (dict_set k v d) = Some v.
Proof.
  induction d as [|[k' v'] d IH]; simpl.
  - by rewrite String.eqb_refl.
  - destruct (String.eqb_spec k k') as [->|Hne]; simpl.
    + by rewrite String.eqb_refl.
    + by rewrite (proj2 (String.eqb_neq k k') Hne).
Qed.

Lemma dict_get_set_ne k k' v d :
  k <> k' -> dict_get k' (dict_set k v d) = dict_get k' d.
Proof.
  intros Hne. induction d as [|[k0 v0] d IH]; simpl.
  - by rewrite (proj2 (String.eqb_neq k' k)).
  - destruct (String.eqb_spec k k0) as [->|Hne0]; simpl.
    + by rewrite (proj2 (String.eqb_neq k' k0)).
    + by rewrite IH.
Qed.

(** Assigning twice to a key keeps the second value and the key's place. *)
Lemma dict_set_set k v1 v2 d : dict_set k v2 (dict_set k v1 d) = dict_set k v2 d.
Proof.
  induction d as [|[k' v'] d IH]; simpl.
  - by rewrite String.eqb_refl.
  - destruct (String.eqb_spec k k') as [->|Hne]; simpl.
    + by rewrite String.eqb_refl.
    + by rewrite (proj2 (String.eqb_neq k k') Hne), IH.
Qed.

Lemma dict_keys_set k v d :
  map fst (dict_set k v d) =
    if bool_decide (k ∈ map fst d) then map fst d else map fst d ++ [k].
Proof.
  induction d as [|[k' v'] d IH]; [done|].
  cbn [dict_set map fst].
  - destruct (String.eqb_spec k k') as [->|Hne]; cbn [map fst].
    + rewrite bool_decide_eq_true_2; [done|]. by left.
    + rewrite IH. destruct (bool_decide (k ∈ map fst d)) eqn:E.
      * apply bool_decide_eq_true in E.
        rewrite bool_decide_eq_true_2; [done|]. by right.
      * apply bool_decide_eq_false in E.
        rewrite bool_decide_eq_false_2; [done|].
        intros [?|?]%elem_of_cons; done.
Qed.

Lemma dict_keys_NoDup_set k v d :
  NoDup (map fst d) -> NoDup (map fst (dict_set k v d)).
Proof.
  intros H. rewrite dict_keys_set. case_bool_decide as E; [done|].
  apply NoDup_app. split_and!; [done| |apply NoDup_singleton].
  intros x Hx ->%list_elem_of_singleton. done.
Qed.

Lemma dict_get_is_Some k d : is_Some (dict_get k d) <-> k ∈ map fst d.
Proof.
  induction d as [|[k' v'] d IH]; simpl.
  - split; [by intros [? ?]|by intros ?%elem_of_nil].
  - destruct (String.eqb_spec k k') as [->|Hne].
    + split; [left|eauto].
    + rewrite IH. split; [by right|]. by intros [?|?]%elem_of_cons.
Qed.

(** In a dictionary the items are found under their keys. *)
Lemma dict_get_item k v d :
  NoDup (map fst d) -> (k, v) ∈ d -> dict_get k d = Some v.
Proof.
  induction d as [|[k' v'] d IH]; simpl; intros Hnd Hin.
  - by apply elem_of_nil in Hin.
  - apply NoDup_cons in Hnd as [Hk' Hnd].
    apply elem_of_cons in Hin as [Heq|Hin].
    + injection Heq as -> ->. by rewrite String.eqb_refl.
    + destruct (String.eqb_spec k k') as [->|Hne]; [|by apply IH].
      destruct Hk'. apply list_elem_of_fmap. by exists (k', v).
Qed.

Variable tokens : list string.

(** The comprehension's inner loop for one stem: the last token that
    contains the stem, if there is one, is what the stem ends up with. *)
Lemma inner_loop_last_match stem toks d :
  fold_left
    (fun d t => if PyStr.contains stem t then dict_set stem t d else d) toks d
  = match Spec.last_match stem toks with
    | Some t => dict_set stem t d
    | None => d
    end.
Proof.
  unfold Spec.last_match.
  revert d; induction toks as [|t ts IH]; intros d; simpl; [done|].
  rewrite IH. destruct (PyStr.contains stem t) eqn:E; [|done].
  rewrite last_cons.
  destruct (last (List.filter (PyStr.contains stem) ts)); [|done].
  apply dict_set_set.
Qed.

Lemma stem_tokens_fold stems :
  stem_tokens tokens stems = fold_left (Spec.assign_last_match tokens) stems [].
Proof.
  unfold stem_tokens. generalize (@nil (string * string)) as d.
  induction stems as [|s ss IH]; intros d; simpl; [done|].
  rewrite inner_loop_last_match. apply IH.
Qed.

Lemma fold_assign_get k stems d :
  dict_get k (fold_left (Spec.assign_last_match tokens) stems d) =
    if bool_decide (k ∈ stems) then
      match Spec.last_match k tokens with
      | Some t => Some t
      | None => dict_get k d
      end
    else dict_get k d.
Proof.
  revert d; induction stems as [|s ss IH]; intros d; cbn [fold_left].
  - done.
  - rewrite IH. unfold Spec.assign_last_match at 1 2.
    destruct (decide (k = s)) as [->|Hne].
    + rewrite (bool_decide_eq_true_2 (s ∈ s :: ss)) by (by left).
      destruct (Spec.last_match s tokens) as [t|] eqn:E.
      * rewrite dict_get_set_eq. by case_bool_decide.
      * by case_bool_decide.
    + assert (Hget : dict_get k
                (match Spec.last_match s tokens with
                 | Some t => dict_set s t d
                 | None => d
                 end) = dict_get k d).
      { destruct (Spec.last_match s tokens); [|done].
        by apply dict_get_set_ne. }
      rewrite Hget.
      destruct (decide (k ∈ ss)) as [Hin|Hnin].
      * rewrite !bool_decide_eq_true_2; [done|by right|done].
      * rewrite !bool_decide_eq_false_2; [done| |done].
        intros [?|?]%elem_of_cons; done.
Qed.

Lemma fold_assign_NoDup stems d :
  NoDup (map fst d) -> NoDup (map fst (fold_left (Spec.assign_last_match tokens) stems d)).
Proof.
  revert d; induction stems as [|s ss IH]; intros d H; simpl; [done|].
  apply IH. unfold Spec.assign_last_match.
  destruct (Spec.last_match s tokens); [|done]. by apply dict_keys_NoDup_set.
Qed.

Lemma stem_tokens_get stem stems :
  dict_get stem (stem_tokens tokens stems) =
    if bool_decide (stem ∈ stems) then Spec.last_match stem tokens else None.
Proof.
  rewrite stem_tokens_fold, fold_assign_get. simpl.
  case_bool_decide; [|done]. by destruct (Spec.last_match stem tokens).
Qed.

Lemma stem_tokens_NoDup stems : NoDup (map fst (stem_tokens tokens stems)).
Proof. rewrite stem_tokens_fold. apply fold_assign_NoDup. constructor. Qed.

Lemma stem_tokens_item stem t stems :
  (stem, t) ∈ stem_tokens tokens stems ->
  stem ∈ stems /\ Spec.last_match stem tokens = Some t.
Proof.
  intros Hin.
  pose proof (dict_get_item _ _ _ (stem_tokens_NoDup stems) Hin) as Hget.
  rewrite stem_tokens_get in Hget. by case_bool_decide.
Qed.

(** C5.  The dictionary built by [scrape_ebi_ids] maps every stem of
    [proj_id_stems] to the last token of [tokens] that contains the stem
    as a substring, and has no entry for a stem that no token contains;
    its keys are pairwise distinct, so one token per stem, the last match
    of that stem, goes on to validation, however many tokens contain the
    stem. *)
Theorem stem_tokens_keeps_last_match proj_id_stems :
  let potential := stem_tokens tokens proj_id_stems in
  (forall stem,
     dict_get stem potential =
       if bool_decide (stem ∈ proj_id_stems)
       then Spec.last_match stem tokens else None) /\
  NoDup (map fst potential) /\
  Forall2 (fun stem t =>
             stem ∈ proj_id_stems /\ Spec.last_match stem tokens = Some t)
    (map fst potential) (dict_values potential).
Proof.
  intros potential. split_and!.
  - intros stem. apply stem_tokens_get.
  - apply stem_tokens_NoDup.
  - unfold dict_values. apply Forall2_fmap, Forall_Forall2_diag.
    apply Forall_forall. intros [stem t] Hin. by apply stem_tokens_item.
Qed.

End DictFacts.

(* ===================================================================== *)
(** ** AccessionScanner: candidates, the length filter, duplicates *)
(* ===================================================================== *)

Section ScannerFacts.

Import Scanner.

Variable ebi_server : string -> HttpResponse.

Lemma isnumeric_single c :
  PyStr.isnumeric (String c EmptyString) = PyStr.isnumeric_char c.
Proof. unfold PyStr.isnumeric; simpl. apply andb_true_r. Qed.

(** The run of the loop body when the stem is followed by a numeric
    character at its first occurrence. *)
Lemma scan_stem_candidate t stem found w i c :
  Spec.first_occurrence stem t i ->
  String.get (i + String.length stem) t = Some c ->
  PyStr.isnumeric_char c = true ->
  scan_stem ebi_server t found stem w =
    let test_study := PyStr.drop i t in
    let ebi_url := ebi_url_of test_study in
    match ebi_server ebi_url with
    | NoResponse => (Spec.sent w (HttpGet ebi_url), Raised RequestException)
    | Response code _ =>
        if (code =? 200) && (6 <=? PyStr.len test_study)
        then (Spec.sent w (HttpGet ebi_url),
              Returned (found ++ [Spec.stripped test_study]))
        else (Spec.logged (Spec.sent w (HttpGet ebi_url)) WARNING
                (not_exist_warning test_study ebi_url),
              Returned found)
    end.
Proof.
  intros Hocc Hget Hnum.
  destruct (find_first_occurrence _ _ _ Hocc) as [Hfind Hle].
  pose proof (get_Some_lt _ _ _ Hget) as Hlt.
  unfold scan_stem. cbv zeta. rewrite Hfind.
  assert (Hidx : Z.of_nat i + PyStr.len stem = Z.of_nat (i + String.length stem))
    by (unfold PyStr.len; lia).
  assert (Hguard : negb (Z.of_nat i =? -1)
                   && (PyStr.len t >=? Z.of_nat i + PyStr.len stem + 1) = true).
  { apply andb_true_intro; split.
    - destruct (Z.eqb_spec (Z.of_nat i) (-1)); [lia|done].
    - rewrite Z.geb_leb. apply Z.leb_le. unfold PyStr.len. lia. }
  rewrite Hguard, Hidx, item_nat, Hget, isnumeric_single, Hnum.
  rewrite (slice_from_nat _ _ Hle).
  rewrite run_bind. unfold requests_get.
  destruct (ebi_server (ebi_url_of (PyStr.drop i t))) as [code body|]; [|done].
  cbn [fst]. rewrite Z.geb_leb.
  destruct (code =? 200); [|done].
  destruct (6 <=? PyStr.len (PyStr.drop i t)); done.
Qed.

(** The run of the loop body in every other case: nothing happens. *)
Lemma scan_stem_no_candidate t stem found w :
  (~ exists i c, Spec.first_occurrence stem t i /\
                 String.get (i + String.length stem) t = Some c /\
                 PyStr.isnumeric_char c = true) ->
  scan_stem ebi_server t found stem w = (w, Returned found).
Proof.
  intros Hnone. unfold scan_stem. cbv zeta. unfold PyStr.find.
  destruct (find_from_spec stem t 0) as [[-> _]|(i & -> & Hocc & Hle)]; [done|].
  rewrite Z.add_0_l.
  destruct (negb (Z.of_nat i =? -1)
            && (PyStr.len t >=? Z.of_nat i + PyStr.len stem + 1)) eqn:Hguard;
    [|done].
  replace (Z.of_nat i + PyStr.len stem) with (Z.of_nat (i + String.length stem))
    by (unfold PyStr.len; lia).
  rewrite item_nat.
  apply andb_prop in Hguard as [_ Hlen].
  rewrite Z.geb_leb in Hlen. apply Z.leb_le in Hlen. unfold PyStr.len in Hlen.
  destruct (get_is_Some (i + String.length stem) t) as [c Hc]; [lia|].
  rewrite Hc, isnumeric_single.
  destruct (PyStr.isnumeric_char c) eqn:Hnum; [|done].
  destruct Hnone. by exists i, c.
Qed.


(** C7, as the code has it.  For a candidate whose existence check
    answers 200, the length filter looks at the candidate before it is
    stripped: a candidate of fewer than 6 characters is not appended (a
    warning is logged instead), and a candidate of 6 characters or more is
    appended in stripped form, whatever the length of the stripped
    form. *)
Theorem length_filter_precedes_stripping t stem found w i c body :
  Spec.first_occurrence stem t i ->
  String.get (i + String.length stem) t = Some c ->
  PyStr.isnumeric_char c = true ->
  ebi_server (ebi_url_of (PyStr.drop i t)) = Response 200 body ->
  let test_study := PyStr.drop i t in
  let r := scan_stem ebi_server t found stem w in
  ((String.length test_study < 6)%nat ->
   snd r = Returned found /\
   log (fst r) =
     log w ++ [(WARNING, not_exist_warning test_study (ebi_url_of test_study))]) /\
  ((6 <= String.length test_study)%nat ->
   snd r = Returned (found ++ [Spec.stripped test_study]) /\
   log (fst r) = log w).
Proof.
  intros Hocc Hget Hnum Hresp test_study r. subst r test_study.
  rewrite (scan_stem_candidate _ _ _ _ _ _ Hocc Hget Hnum). cbv zeta.
  rewrite Hresp. cbn [Z.eqb Pos.eqb andb]. unfold PyStr.len. split.
  - intros Hshort. destruct (Z.leb_spec 6 (Z.of_nat (String.length (PyStr.drop i t))));
      [lia|done].
  - intros Hlong. destruct (Z.leb_spec 6 (Z.of_nat (String.length (PyStr.drop i t))));
      [done|lia].
Qed.

(** A loop whose body appends [f x] for every [x] appends the
    concatenation of all of them. *)
Lemma for_each_appends {A} (body : list string -> A -> M (list string))
  (f : A -> list string) xs :
  (forall x acc w, snd (body acc x w) = Returned (acc ++ f x)) ->
  forall acc w, snd (for_each xs body acc w) = Returned (acc ++ flat_map f xs).
Proof.
  intros Hbody. induction xs as [|x xs IH]; intros acc w.
  - rewrite run_for_each_nil. simpl. by rewrite app_nil_r.
  - rewrite run_for_each_cons. specialize (Hbody x acc w).
    destruct (body acc x w) as [w' [acc'|e]]; simpl in Hbody; [|done].
    injection Hbody as ->. rewrite IH. simpl. by rewrite app_assoc.
Qed.

Lemma scan_stem_appends_some t stem :
  Yield.responsive ebi_server ->
  exists y, forall found w,
    snd (scan_stem ebi_server t found stem w) = Returned (found ++ y).
Proof.
  intros Hresp.
  assert (Hno : (~ exists i c, Spec.first_occurrence stem t i /\
                   String.get (i + String.length stem) t = Some c /\
                   PyStr.isnumeric_char c = true) ->
                exists y, forall found w,
                  snd (scan_stem ebi_server t found stem w) = Returned (found ++ y)).
  { intros Hnone. exists []. intros found w.
    rewrite (scan_stem_no_candidate _ _ _ _ Hnone). simpl. by rewrite app_nil_r. }
  destruct (find_from_spec stem t 0) as [[_ Hnot]|(i & _ & Hocc & _)].
  { apply Hno. intros (i & c & [Hi _] & _). by rewrite Hnot in Hi. }
  destruct (String.get (i + String.length stem) t) as [c|] eqn:Hget.
  2:{ apply Hno. intros (j & d & Hocc' & Hget' & _).
      rewrite (first_occurrence_unique _ _ _ _ Hocc' Hocc) in Hget'. congruence. }
  destruct (PyStr.isnumeric_char c) eqn:Hnum.
  2:{ apply Hno. intros (j & d & Hocc' & Hget' & Hnum').
      rewrite (first_occurrence_unique _ _ _ _ Hocc' Hocc) in Hget'. congruence. }
  pose proof (Hresp (ebi_url_of (PyStr.drop i t))) as Hanswer.
  destruct (ebi_server (ebi_url_of (PyStr.drop i t))) as [code body|] eqn:Hsrv;
    [|done].
  exists (if (code =? 200) && (6 <=? PyStr.len (PyStr.drop i t))
          then [Spec.stripped (PyStr.drop i t)] else []).
  intros found w.
  rewrite (scan_stem_candidate _ _ _ _ _ _ Hocc Hget Hnum). cbv zeta.
  rewrite Hsrv. destruct ((code =? 200) && _); simpl; [done|].
  by rewrite app_nil_r.
Qed.

Lemma scan_stem_appends t stem :
  Yield.responsive ebi_server ->
  forall found w,
    snd (scan_stem ebi_server t found stem w)
      = Returned (found ++ Yield.stem_yield ebi_server t stem).
Proof.
  intros Hresp. destruct (scan_stem_appends_some t stem Hresp) as [y Hy].
  intros found w. unfold Yield.stem_yield.
  by rewrite (Hy [] Fixture.empty_world), Hy.
Qed.

Lemma scan_token_appends stems t :
  Yield.responsive ebi_server ->
  forall found w,
    snd (scan_token ebi_server stems found t w)
      = Returned (found ++ Yield.token_yield ebi_server stems t).
Proof.
  intros Hresp found w. unfold scan_token, Yield.token_yield.
  apply for_each_appends. intros stem acc w'. by apply scan_stem_appends.
Qed.

Lemma scrape_ebi_ids_returns tokens stems w :
  Yield.responsive ebi_server ->
  snd (scrape_ebi_ids ebi_server tokens stems w)
    = Returned (flat_map (Yield.token_yield ebi_server stems)
                  (dict_values (stem_tokens tokens stems))).
Proof.
  intros Hresp. unfold scrape_ebi_ids. cbv zeta.
  rewrite (for_each_appends _ (Yield.token_yield ebi_server stems)); [done|].
  intros t acc w'. by apply scan_token_appends.
Qed.

Lemma occurrences_app x l1 l2 :
  Spec.occurrences x (l1 ++ l2) = (Spec.occurrences x l1 + Spec.occurrences x l2)%nat.
Proof. unfold Spec.occurrences. by rewrite List.filter_app, length_app. Qed.

Lemma occurrences_cons x y l :
  Spec.occurrences x (y :: l) =
    ((if String.eqb x y then 1 else 0) + Spec.occurrences x l)%nat.
Proof. unfold Spec.occurrences. simpl. by destruct (String.eqb x y). Qed.

(** Every occurrence of [t] in [l] contributes all of [f t]. *)
Lemma occurrences_flat_map (f : string -> list string) t a l :
  (Spec.occurrences t l * Spec.occurrences a (f t) <=
   Spec.occurrences a (flat_map f l))%nat.
Proof.
  induction l as [|x l IH]; [done|].
  cbn [flat_map]. rewrite occurrences_app, occurrences_cons.
  destruct (String.eqb_spec t x) as [<-|_]; lia.
Qed.

(** How often a token occurs among the surviving tokens: once for every
    distinct stem whose last match it is. *)
Lemma occurrences_potential tokens stems t :
  Spec.occurrences t (dict_values (stem_tokens tokens stems)) =
    length (remove_dups
              (filter (fun k => Spec.last_match k tokens = Some t) stems)).
Proof.
  set (P := fun k => Spec.last_match k tokens = Some t).
  assert (Hcount : forall d' : dict,
             Forall (fun kv => Spec.last_match kv.1 tokens = Some kv.2) d' ->
             Spec.occurrences t (dict_values d') = length (filter P (map fst d'))).
  { induction d' as [|[k v] d' IH]; intros Hall; [done|].
    apply Forall_cons in Hall as [Hkv Hall]. simpl in Hkv.
    unfold dict_values in *. cbn [map fst snd].
    rewrite occurrences_cons, (IH Hall).
    destruct (String.eqb_spec t v) as [->|Hne].
    - by rewrite filter_cons_True.
    - rewrite filter_cons_False; [done|]. unfold P. congruence. }
  rewrite Hcount.
  2:{ apply Forall_forall. intros [k v] Hin.
      by apply stem_tokens_item in Hin as [_ ?]. }
  apply Permutation_length, NoDup_Permutation.
  - apply NoDup_filter, stem_tokens_NoDup.
  - apply NoDup_remove_dups.
  - intros k. rewrite elem_of_remove_dups, !list_elem_of_filter.
    rewrite <- dict_get_is_Some, stem_tokens_get. unfold P.
    split; intros [HP Hin]; (split; [done|]).
    + case_bool_decide; [done|by destruct Hin].
    + rewrite bool_decide_eq_true_2 by done. rewrite HP. eauto.
Qed.

Lemma two_distinct_elements (x y : string) l :
  x ∈ l -> y ∈ l -> x <> y -> (2 <= length l)%nat.
Proof.
  intros Hx Hy Hne. destruct l as [|a [|b l]]; simpl; [| |lia].
  - by apply elem_of_nil in Hx.
  - apply list_elem_of_singleton in Hx, Hy. congruence.
Qed.

(** C10.  When a token [t] is the last match of two distinct stems, it
    occurs among the surviving tokens once for every distinct stem whose
    last match it is, so at least twice; every occurrence is scanned
    against every stem and appends the same accessions; and the list
    [scrape_ebi_ids] returns is the concatenation of what the surviving
    tokens append, so each accession got from [t] is in it once for
    every occurrence of [t]. *)
Theorem shared_token_yields_duplicates tokens proj_id_stems stem1 stem2 t w :
  Yield.responsive ebi_server ->
  stem1 ∈ proj_id_stems -> stem2 ∈ proj_id_stems -> stem1 <> stem2 ->
  Spec.last_match stem1 tokens = Some t ->
  Spec.last_match stem2 tokens = Some t ->
  let potential_tokens := dict_values (stem_tokens tokens proj_id_stems) in
  let yield := Yield.token_yield ebi_server proj_id_stems in
  Spec.occurrences t potential_tokens =
    length (remove_dups
              (filter (fun k => Spec.last_match k tokens = Some t) proj_id_stems)) /\
  (2 <= Spec.occurrences t potential_tokens)%nat /\
  (forall found0 w0,
     snd (scan_token ebi_server proj_id_stems found0 t w0)
       = Returned (found0 ++ yield t)) /\
  snd (scrape_ebi_ids ebi_server tokens proj_id_stems w)
    = Returned (flat_map yield potential_tokens) /\
  forall a,
    (Spec.occurrences t potential_tokens * Spec.occurrences a (yield t)
     <= Spec.occurrences a (flat_map yield potential_tokens))%nat.
Proof.
  intros Hresp Hin1 Hin2 Hne Hlast1 Hlast2 potential_tokens yield.
  subst potential_tokens yield. split_and!.
  - apply occurrences_potential.
  - rewrite occurrences_potential.
    apply (two_distinct_elements stem1 stem2); [| |done];
      apply elem_of_remove_dups, list_elem_of_filter; done.
  - intros found0 w0. by apply scan_token_appends.
  - by apply scrape_ebi_ids_returns.
  - intros a. apply occurrences_flat_map.
Qed.

End ScannerFacts.

(** The token ["ERP12,"] against rejection by stripped length: its candidate
    ["ERP12,"] exists on the server, is five characters long once
    stripped, and is in the result list. *)
Lemma short_stripped_candidate_is_kept :
  exists found,
    Fixture.always_200 (Scanner.ebi_url_of "ERP12,") = Response 200 EmptyString /\
    snd (Scanner.scrape_ebi_ids Fixture.always_200 ["ERP12,"]
           Scanner.default_stems Fixture.empty_world) = Returned found /\
    Spec.stripped "ERP12," ∈ found /\
    (String.length (Spec.stripped "ERP12,") < 6)%nat.
Proof.
  exists ["ERP12"]. split_and!.
  - reflexivity.
  - vm_compute. reflexivity.
  - vm_compute. by left.
  - vm_compute. lia.
Qed.

(* ===================================================================== *)
(** ** The theorems at concrete inputs *)
(* ===================================================================== *)

(** [retrieve_skips_valid_local_copy] on a world with one valid read file,
    against a server that is down: the checksum comes back and the network log stays empty. *)
Lemma retrieve_skips_valid_local_copy_witness :
  let sum := Download.hexdigest (Fixture.toy_md5 Fixture.fastq_bytes) in
  let call :=
    Download.retrieve_ftp_file Fixture.toy_md5 Fixture.ftp_down Shape.any_dir
      "host/r1.fastq" "reads/r1.fastq" sum false in
  files Fixture.one_file_world !! "reads/r1.fastq" = Some Fixture.fastq_bytes /\
  snd (call Fixture.one_file_world) = Returned (Str sum) /\
  net (fst (call Fixture.one_file_world)) = [] /\
  forall n,
    net (fst (call (Download.repeat_retrieve Fixture.toy_md5 Fixture.ftp_down Shape.any_dir n
                      "host/r1.fastq" "reads/r1.fastq" sum false
                      Fixture.one_file_world))) = [].
Proof.
  intros sum call.
  assert (Hfile : files Fixture.one_file_world !! "reads/r1.fastq"
                  = Some Fixture.fastq_bytes) by (vm_compute; reflexivity).
  destruct (retrieve_skips_valid_local_copy Fixture.toy_md5 Fixture.ftp_down Shape.any_dir
              "host/r1.fastq" "reads/r1.fastq" sum Fixture.one_file_world
              Fixture.fastq_bytes Hfile eq_refl) as [(Hret & Hnet & _) Hrep].
  split; [exact Hfile|]. split; [exact Hret|]. split; [exact Hnet|].
  intros n. destruct (Hrep n) as (_ & Hn & _). exact Hn.
Defined.

(** [retrieve_transport_failure_contained] with [overwrite=True], a
    connection that breaks after one byte,
    and a local file at the path that equals the remote-path string: the
    call returns [False], that file is gone, the partial download
    stays. *)
Lemma retrieve_transport_failure_contained_witness :
  let r :=
    Download.retrieve_ftp_file Fixture.toy_md5 Fixture.ftp_breaks Shape.any_dir
      "host/r1.fastq" "reads/r1.fastq" "00" true Fixture.shadow_world in
  Download.transfer_outcome Fixture.ftp_breaks Shape.any_dir
    ("ftp://" +:+ "host/r1.fastq") "reads/r1.fastq"
    = Download.Failed URLError (Some [x40]) /\
  snd r = Returned PyFalse /\
  net (fst r) = [UrlRetrieve "ftp://host/r1.fastq"] /\
  files (fst r) !! "host/r1.fastq" = None /\
  files (fst r) !! "reads/r1.fastq" = Some [x40].
Proof.
  intros r.
  destruct (retrieve_transport_failure_contained Fixture.toy_md5
              Fixture.ftp_breaks
              Shape.any_dir "host/r1.fastq" "reads/r1.fastq" "00" true
              Fixture.shadow_world (Some [x40]) (or_introl eq_refl) eq_refl)
    as (Hret & Hnet & Hfiles & _).
  fold r in Hret, Hnet, Hfiles.
  split; [reflexivity|]. split; [exact Hret|]. split; [exact Hnet|].
  rewrite Hfiles. split; vm_compute; reflexivity.
Defined.


(** [length_filter_precedes_stripping] on the token ["ERP12,"]: six characters before
    stripping, so it is appended, as ["ERP12"]. *)
Lemma length_filter_precedes_stripping_witness :
  Spec.first_occurrence "ERP" "ERP12," 0 /\
  Fixture.always_200 (Scanner.ebi_url_of "ERP12,") = Response 200 EmptyString /\
  snd (Scanner.scan_stem Fixture.always_200 "ERP12," [] "ERP" Fixture.empty_world)
    = Returned ["ERP12"].
Proof.
  assert (H0 : Spec.first_occurrence "ERP" "ERP12," 0).
  { split; [reflexivity|]. intros j Hj; lia. }
  split; [exact H0|]. split; [reflexivity|].
  destruct (length_filter_precedes_stripping Fixture.always_200 "ERP12," "ERP"
              [] Fixture.empty_world 0%nat "1"%char EmptyString
              H0 eq_refl eq_refl eq_refl) as [_ Hlong].
  destruct (Hlong (le_n 6)) as [Hret _]. exact Hret.
Defined.

(** [parse_document_non_200] on a DOI resolver URL that answers 404. *)
Lemma parse_document_non_200_witness :
  PyStr.startswith "htt" "https://doi.org/10.1000/182" = true /\
  Fixture.always_404 "https://doi.org/10.1000/182" = Response 404 "Not Found" /\
  Tokenizer.parse_document Fixture.always_404 (fun _ => None)
    Fixture.toy_pdf_reader Fixture.latin1
    "https://doi.org/10.1000/182" Fixture.empty_world
  = (Spec.sent Fixture.empty_world (HttpGet "https://doi.org/10.1000/182"),
     Returned []).
Proof.
  split; [reflexivity|]. split; [reflexivity|].
  apply (parse_document_non_200 Fixture.always_404 (fun _ => None)
           Fixture.toy_pdf_reader Fixture.latin1
           "https://doi.org/10.1000/182" Fixture.empty_world 404 "Not Found");
    [reflexivity|reflexivity|discriminate].
Defined.

(** [shared_token_yields_duplicates] on the single token
    ["PRJEB123ERP456"], the last match of both
    ["PRJEB"] and ["ERP"]: it survives twice, and both of its accessions
    are in the result twice. *)
Lemma shared_token_yields_duplicates_witness :
  Yield.responsive Fixture.always_200 /\
  Spec.last_match "PRJEB" ["PRJEB123ERP456"] = Some "PRJEB123ERP456" /\
  Spec.last_match "ERP" ["PRJEB123ERP456"] = Some "PRJEB123ERP456" /\
  Scanner.dict_values (Scanner.stem_tokens ["PRJEB123ERP456"] Scanner.default_stems)
    = ["PRJEB123ERP456"; "PRJEB123ERP456"] /\
  snd (Scanner.scrape_ebi_ids Fixture.always_200 ["PRJEB123ERP456"]
         Scanner.default_stems Fixture.empty_world)
    = Returned ["PRJEB123ERP456"; "ERP456"; "PRJEB123ERP456"; "ERP456"].
Proof.
  assert (Hresp : Yield.responsive Fixture.always_200)
    by (intros url; discriminate).
  split; [exact Hresp|]. split; [reflexivity|]. split; [reflexivity|].
  split; [reflexivity|].
  destruct (shared_token_yields_duplicates Fixture.always_200
              ["PRJEB123ERP456"] Scanner.default_stems "PRJEB" "ERP"
              "PRJEB123ERP456" Fixture.empty_world Hresp)
    as (_ & _ & _ & Hret & _).
  - unfold Scanner.default_stems. apply elem_of_cons; by left.
  - unfold Scanner.default_stems. do 2 (apply elem_of_cons; right).
    apply elem_of_cons; by left.
  - discriminate.
  - reflexivity.
  - reflexivity.
  - rewrite Hret. vm_compute. reflexivity.
Defined.

(* ===================================================================== *)
(** ** The model on small inputs *)
(* ===================================================================== *)

Example find_first : PyStr.find "xxERP12ERP3" "ERP" = 2.
Proof. reflexivity. Qed.

Example find_absent : PyStr.find "xxERP12" "SRP" = -1.
Proof. reflexivity. Qed.

Example slice_prefix : PyStr.slice "10.1000/182" (Some 0) (Some 3) = "10.".
Proof. reflexivity. Qed.

Example slice_suffix : PyStr.slice "a/b.pdf" (Some (-3)) None = "pdf".
Proof. reflexivity. Qed.

Example slice_suffix_short : PyStr.slice "df" (Some (-3)) None = "df".
Proof. reflexivity. Qed.

Example strip_both_ends : PyStr.strip_chars "," ",ab,," = "ab".
Proof. reflexivity. Qed.

(** The stripping chain runs once, in its fixed order: a comma that
    shows only after the period is gone stays. *)
Example stripped_order : Spec.stripped "ERP123,." = "ERP123,".
Proof. reflexivity. Qed.

Example split_pdf_text :
  PyStr.re_split Tokenizer.pdf_delims "a, b;c d. e.f" = ["a"; "b;c"; "d"; "e.f"].
Proof. reflexivity. Qed.

Example split_html_text :
  PyStr.re_split Tokenizer.text_delims "<a href='x/y'>ERP3</a>"
  = [""; "a"; "href="; "x"; "y"; ""; "ERP3"; ""; "a"; ""].
Proof. reflexivity. Qed.

Example split_empty : PyStr.re_split Tokenizer.pdf_delims "" = [""].
Proof. reflexivity. Qed.

Example hexdigest_pads : Download.hexdigest 255 = "000000000000000000000000000000ff".
Proof. reflexivity. Qed.

Example stem_tokens_overwrites :
  Scanner.stem_tokens ["ERP1"; "SRP7"; "xERP2"] Scanner.default_stems
  = [("ERP", "xERP2"); ("SRP", "SRP7")].
Proof. reflexivity. Qed.

(* ===================================================================== *)
(** ** The downloader on every path *)
(* ===================================================================== *)

Section DownloadPaths.

Import Download.

Variable md5 : list byte -> N.
Variable ftp_server : string -> Transfer.
Variable open_wb : string -> option OpenError.

(** Either a valid local copy lets the call skip the download, or the
    download is due. *)
Lemma skip_or_due filepath remote_checksum overwrite w :
  (overwrite = false /\
   exists c, files w !! filepath = Some c /\ hexdigest (md5 c) = remote_checksum)
  \/ Shape.download_due md5 filepath remote_checksum overwrite w.
Proof.
  destruct overwrite; [right; by left|].
  destruct (files w !! filepath) as [c|] eqn:E.
  - destruct (decide (hexdigest (md5 c) = remote_checksum)) as [Heq|Hne].
    + left. split; [done|]. by exists c.
    + right; right. intros c' Hc'. congruence.
  - right; right. intros c' Hc'. congruence.
Qed.

(** The call comes to a delivery when the server delivers and the
    destination can be created. *)
Lemma transfer_outcome_delivered url dest c :
  ftp_server url = Delivered c -> open_wb dest = None ->
  transfer_outcome ftp_server open_wb url dest = Delivered c.
Proof. intros Hsrv Hopen. unfold transfer_outcome. by rewrite Hsrv, Hopen. Qed.

(** When the connection is made and the destination cannot be created,
    the call comes to the error of [open], with nothing written. *)
Lemma transfer_outcome_unwritable url dest o :
  (forall e, ftp_server url <> Failed e None) -> open_wb dest = Some o ->
  transfer_outcome ftp_server open_wb url dest = Failed (open_exn o) None.
Proof.
  intros Hconn Hopen. unfold transfer_outcome. rewrite Hopen.
  destruct (ftp_server url) as [c|e [c|]]; try done. by destruct (Hconn e).
Qed.

Lemma open_exn_not_URLError o : is_URLError (open_exn o) = false.
Proof. by destruct o. Qed.

Lemma run_urlretrieve_delivered url dest w c :
  transfer_outcome ftp_server open_wb url dest = Delivered c ->
  urlretrieve ftp_server open_wb url dest w =
    (mkWorld (<[dest := c]> (files w)) (net w ++ [UrlRetrieve url]) (log w),
     Returned tt).
Proof. intros H. unfold urlretrieve. by rewrite H. Qed.

(** The whole run when [urlretrieve] completes. *)
Lemma retrieve_delivered_run ftp_path filepath remote_checksum overwrite w c :
  Shape.download_due md5 filepath remote_checksum overwrite w ->
  transfer_outcome ftp_server open_wb ("ftp://" +:+ ftp_path) filepath
    = Delivered c ->
  exists earlier,
    retrieve_ftp_file md5 ftp_server open_wb ftp_path filepath
      remote_checksum overwrite w
    = (mkWorld (<[filepath := c]> (files w))
         (net w ++ [UrlRetrieve ("ftp://" +:+ ftp_path)])
         (log w ++ earlier),
       Returned (if String.eqb remote_checksum (hexdigest (md5 c))
                 then Str (hexdigest (md5 c)) else PyFalse)).
Proof.
  intros Hdue Hsrv. unfold retrieve_ftp_file.
  destruct (check_local_copy_falls_through md5 ftp_path filepath remote_checksum
              overwrite w Hdue) as [earlier Hearly].
  exists earlier. rewrite run_bind, Hearly. unfold try_except.
  rewrite run_bind, (run_urlretrieve_delivered _ _ _ _ Hsrv).
  cbn [files net log]. rewrite run_bind.
  rewrite (check_present md5 filepath remote_checksum _ c)
    by (cbn [files]; apply lookup_insert_eq).
  reflexivity.
Qed.

(** The whole run when [urlretrieve] raises something else than
    [URLError]. *)
Lemma retrieve_unwrapped_run
  ftp_path filepath remote_checksum overwrite w e written :
  Shape.download_due md5 filepath remote_checksum overwrite w ->
  transfer_outcome ftp_server open_wb ("ftp://" +:+ ftp_path) filepath
    = Failed e written ->
  is_URLError e = false ->
  exists earlier,
    retrieve_ftp_file md5 ftp_server open_wb ftp_path filepath
      remote_checksum overwrite w
    = (mkWorld
         (match written with
          | Some c => <[filepath := c]> (files w)
          | None => files w
          end)
         (net w ++ [UrlRetrieve ("ftp://" +:+ ftp_path)])
         (log w ++ earlier),
       Raised e).
Proof.
  intros Hdue Hsrv Hclass. unfold retrieve_ftp_file.
  destruct (check_local_copy_falls_through md5 ftp_path filepath remote_checksum
              overwrite w Hdue) as [earlier Hearly].
  exists earlier. rewrite run_bind, Hearly. unfold try_except.
  rewrite run_bind, (run_urlretrieve_failed _ _ _ _ _ _ _ Hsrv).
  by rewrite Hclass.
Qed.

(** A string that [retrieve_ftp_file] returns is the expected checksum,
    and the destination then holds a file with that digest. *)
Theorem returned_checksum_certifies_file
  ftp_path filepath remote_checksum overwrite w s :
  let r := retrieve_ftp_file md5 ftp_server open_wb ftp_path filepath
             remote_checksum overwrite w in
  snd r = Returned (Str s) ->
  s = remote_checksum /\
  exists c, files (fst r) !! filepath = Some c /\
            hexdigest (md5 c) = remote_checksum.
Proof.
  intros r Hret. subst r.
  destruct (skip_or_due filepath remote_checksum overwrite w)
    as [[-> (c & Hfile & Hsum)]|Hdue].
  - subst remote_checksum. rewrite (retrieve_skip _ _ _ _ _ _ _ Hfile) in *.
    cbn [fst snd files] in *. injection Hret as <-. eauto.
  - destruct (transfer_outcome ftp_server open_wb ("ftp://" +:+ ftp_path) filepath)
      as [c|e written] eqn:Hsrv.
    + destruct (retrieve_delivered_run _ _ _ _ _ _ Hdue Hsrv) as [earlier Hrun].
      rewrite Hrun in *. cbn [fst snd files] in *.
      destruct (String.eqb_spec remote_checksum (hexdigest (md5 c))) as [Heq|];
        [|discriminate].
      injection Hret as <-. split; [done|].
      exists c. by rewrite lookup_insert_eq.
    + destruct (is_URLError e) eqn:Hclass.
      * destruct e; try discriminate.
        destruct (retrieve_failure_run _ _ _ _ _ _ _ _ _ Hdue Hsrv)
          as [earlier Hrun].
        rewrite Hrun in Hret. discriminate.
      * destruct (retrieve_unwrapped_run _ _ _ _ _ _ _ Hdue Hsrv Hclass)
          as [earlier Hrun].
        rewrite Hrun in Hret. discriminate.
Qed.

(** When the download is due, the destination can be created and the
    server delivers, the delivered content is at the destination whether
    or not its digest matches: on a mismatch the call returns [False] and
    the file stays. *)
Theorem delivered_file_is_kept
  ftp_path filepath remote_checksum overwrite w c :
  Shape.download_due md5 filepath remote_checksum overwrite w ->
  ftp_server ("ftp://" +:+ ftp_path) = Delivered c ->
  open_wb filepath = None ->
  let r := retrieve_ftp_file md5 ftp_server open_wb ftp_path filepath
             remote_checksum overwrite w in
  snd r = Returned (if decide (hexdigest (md5 c) = remote_checksum)
                    then Str remote_checksum else PyFalse) /\
  files (fst r) = <[filepath := c]> (files w) /\
  net (fst r) = net w ++ [UrlRetrieve ("ftp://" +:+ ftp_path)].
Proof.
  intros Hdue Hsrv Hopen r. subst r.
  pose proof (transfer_outcome_delivered _ _ _ Hsrv Hopen) as Hout.
  destruct (retrieve_delivered_run _ _ _ _ _ _ Hdue Hout) as [earlier ->].
  cbn [fst snd files net]. split_and!; try done.
  destruct (String.eqb_spec remote_checksum (hexdigest (md5 c))) as [->|Hne].
  - by rewrite decide_True.
  - by rewrite decide_False.
Qed.

(** One call makes at most one transfer, from ["ftp://" + ftp_path], and
    touches no file other than the destination and the path that equals
    the remote-path string. *)
Theorem at_most_one_transfer ftp_path filepath remote_checksum overwrite w :
  let r := retrieve_ftp_file md5 ftp_server open_wb ftp_path filepath
             remote_checksum overwrite w in
  (net (fst r) = net w \/
   net (fst r) = net w ++ [UrlRetrieve ("ftp://" +:+ ftp_path)]) /\
  forall p, p <> filepath -> p <> ftp_path -> files (fst r) !! p = files w !! p.
Proof.
  intros r. subst r.
  destruct (skip_or_due filepath remote_checksum overwrite w)
    as [[-> (c & Hfile & Hsum)]|Hdue].
  - subst remote_checksum. rewrite (retrieve_skip _ _ _ _ _ _ _ Hfile).
    cbn [fst files net]. split; [by left|done].
  - assert (Hframe : forall (written : option (list byte)) p, p <> filepath ->
              match written with
              | Some c => <[filepath := c]> (files w)
              | None => files w
              end !! p = files w !! p).
    { intros [c|] p Hp; [|done]. by rewrite lookup_insert_ne. }
    destruct (transfer_outcome ftp_server open_wb ("ftp://" +:+ ftp_path) filepath)
      as [c|e written] eqn:Hsrv.
    + destruct (retrieve_delivered_run _ _ _ _ _ _ Hdue Hsrv) as [earlier ->].
      cbn [fst files net]. split; [by right|].
      intros p Hp _. by rewrite lookup_insert_ne.
    + destruct (is_URLError e) eqn:Hclass.
      * destruct e; try discriminate.
        destruct (retrieve_failure_run _ _ _ _ _ _ _ _ _ Hdue Hsrv)
          as [earlier ->].
        cbn [fst files net]. split; [by right|].
        intros p Hp Hp'. rewrite lookup_delete_ne by done. by apply Hframe.
      * destruct (retrieve_unwrapped_run _ _ _ _ _ _ _ Hdue Hsrv Hclass)
          as [earlier ->].
        cbn [fst files net]. split; [by right|].
        intros p Hp _. by apply Hframe.
Qed.

(** An exception of the transfer that is not a [URLError] reaches the
    caller: no warning about the transfer is logged and nothing is
    removed, so a partly written destination stays as it is.  The
    exception is that of the server side, or that of opening the
    destination. *)
Theorem unwrapped_failure_reaches_caller
  ftp_path filepath remote_checksum overwrite w e written :
  Shape.download_due md5 filepath remote_checksum overwrite w ->
  transfer_outcome ftp_server open_wb ("ftp://" +:+ ftp_path) filepath
    = Failed e written ->
  is_URLError e = false ->
  let r := retrieve_ftp_file md5 ftp_server open_wb ftp_path filepath
             remote_checksum overwrite w in
  snd r = Raised e /\
  files (fst r) =
    match written with
    | Some c => <[filepath := c]> (files w)
    | None => files w
    end /\
  log (fst r) =
    log (fst (check_local_copy md5 ftp_path filepath remote_checksum overwrite w)).
Proof.
  intros Hdue Hsrv Hclass r. subst r.
  destruct (check_local_copy_falls_through md5 ftp_path filepath remote_checksum
              overwrite w Hdue) as [earlier Hearly].
  unfold retrieve_ftp_file. rewrite run_bind, Hearly. unfold try_except.
  rewrite run_bind, (run_urlretrieve_failed _ _ _ _ _ _ _ Hsrv).
  by rewrite Hclass.
Qed.

(** Whatever the world and the overwrite flag, when the destination can
    be created, a server that delivers content with the expected digest
    makes the call return the checksum. *)
Theorem good_delivery_returns_checksum
  ftp_path filepath remote_checksum overwrite w c :
  ftp_server ("ftp://" +:+ ftp_path) = Delivered c ->
  open_wb filepath = None ->
  hexdigest (md5 c) = remote_checksum ->
  snd (retrieve_ftp_file md5 ftp_server open_wb ftp_path filepath
         remote_checksum overwrite w) = Returned (Str remote_checksum).
Proof.
  intros Hsrv Hopen Hsum.
  pose proof (transfer_outcome_delivered _ _ _ Hsrv Hopen) as Hout.
  destruct (skip_or_due filepath remote_checksum overwrite w)
    as [[-> (c' & Hfile & Hsum')]|Hdue].
  - rewrite <- Hsum'. by rewrite (retrieve_skip _ _ _ _ _ _ _ Hfile).
  - destruct (retrieve_delivered_run _ _ _ _ _ _ Hdue Hout) as [earlier ->].
    cbn [snd]. by rewrite <- Hsum, String.eqb_refl.
Qed.

End DownloadPaths.

(* ===================================================================== *)
(** ** The tokenizer on every branch *)
(* ===================================================================== *)

Section SplitFacts.

Import PyStr.

Lemma append_assoc (a b c : string) : (a +:+ b) +:+ c = a +:+ (b +:+ c).
Proof.
  induction a as [|x a IH]; [done|].
  change (String x ((a +:+ b) +:+ c) = String x (a +:+ (b +:+ c))).
  by f_equal.
Qed.

Lemma append_empty_r (a : string) : a +:+ EmptyString = a.
Proof.
  induction a as [|x a IH]; [done|].
  change (String x (a +:+ EmptyString) = String x a). by f_equal.
Qed.

Lemma char_in_append c (a b : string) :
  char_in c (a +:+ b) = char_in c a || char_in c b.
Proof.
  induction a as [|x a IH]; [done|].
  change (Ascii.eqb c x || char_in c (a +:+ b)
          = (Ascii.eqb c x || char_in c a) || char_in c b).
  rewrite IH. by rewrite orb_assoc.
Qed.

Lemma first_match_none alts s d :
  first_match alts s = None -> In d alts -> startswith d s = false.
Proof.
  induction alts as [|a alts IH]; simpl; [done|].
  destruct (startswith a s) eqn:E; [done|].
  intros Hnone [<-|Hin]; [done|by apply IH].
Qed.

(** A character that is a delimiter on its own is in no piece. *)
Lemma split_go_free alts c skip cur s :
  In (String c EmptyString) alts ->
  char_in c cur = false ->
  Forall (fun tok => char_in c tok = false) (split_go alts skip cur s).
Proof.
  intros Hin. revert skip cur.
  induction s as [|a s IH]; intros skip cur Hcur; cbn [split_go].
  - by constructor.
  - destruct skip as [|k]; [|by apply IH].
    destruct (first_match alts (String a s)) as [d|] eqn:E.
    + constructor; [done|]. by apply IH.
    + apply IH. rewrite char_in_append, Hcur. simpl.
      pose proof (first_match_none _ _ _ E Hin) as Hhead. simpl in Hhead.
      destruct (Ascii.eqb c a); [discriminate|done].
Qed.

Lemma re_split_free alts c s :
  In (String c EmptyString) alts ->
  Forall (fun tok => char_in c tok = false) (re_split alts s).
Proof. intros Hin. by apply split_go_free. Qed.

Lemma text_delims_single c :
  char_in c Shape.text_delim_chars = true ->
  In (String c EmptyString) Tokenizer.text_delims.
Proof.
  unfold Shape.text_delim_chars, Tokenizer.text_delims, Tokenizer.nl,
    Tokenizer.tab, Tokenizer.dquote.
  simpl.
  repeat match goal with
    | |- context [Ascii.eqb c ?d] =>
        destruct (Ascii.eqb_spec c d) as [->|_];
          [intros _; repeat (first [left; reflexivity | right])|]
    end.
  discriminate.
Qed.

Lemma pdf_delims_single c :
  char_in c Shape.pdf_space_chars = true ->
  In (String c EmptyString) Tokenizer.pdf_delims /\
  In (String c EmptyString) Tokenizer.text_delims.
Proof.
  unfold Shape.pdf_space_chars, Tokenizer.pdf_delims, Tokenizer.text_delims,
    Tokenizer.nl, Tokenizer.tab, Tokenizer.dquote.
  simpl.
  repeat match goal with
    | |- context [Ascii.eqb c ?d] =>
        destruct (Ascii.eqb_spec c d) as [->|_];
          [intros _; split; repeat (first [left; reflexivity | right])|]
    end.
  discriminate.
Qed.

Lemma text_tokens_free s :
  Forall (Shape.free_of Shape.text_delim_chars)
    (re_split Tokenizer.text_delims s) /\
  Forall (Shape.free_of Shape.pdf_space_chars)
    (re_split Tokenizer.text_delims s).
Proof.
  split; apply Forall_forall; intros tok Htok c Hc.
  - pose proof (re_split_free _ c s (text_delims_single c Hc)) as Hall.
    by apply (proj1 (Forall_forall _ _) Hall).
  - pose proof (re_split_free _ c s (proj2 (pdf_delims_single c Hc))) as Hall.
    by apply (proj1 (Forall_forall _ _) Hall).
Qed.

Lemma pdf_tokens_free s :
  Forall (Shape.free_of Shape.pdf_space_chars)
    (re_split Tokenizer.pdf_delims s).
Proof.
  apply Forall_forall; intros tok Htok c Hc.
  pose proof (re_split_free _ c s (proj1 (pdf_delims_single c Hc))) as Hall.
  by apply (proj1 (Forall_forall _ _) Hall).
Qed.

End SplitFacts.

Section TokenizerBranches.

Import Tokenizer.

Variable http_server : string -> HttpResponse.
Variable http_download : string -> option (string * list byte).
Variable pdf_reader : list byte -> option (list PageObject).
Variable decode : list byte -> option string.

Lemma bind_returned {A B} (m : M A) (k : A -> M B) w b :
  snd ((m ≫= k) w) = Returned b ->
  exists w' a, m w = (w', Returned a) /\ snd (k a w') = Returned b.
Proof.
  rewrite run_bind. destruct (m w) as [w' [a|e]]; [eauto|discriminate].
Qed.

Lemma extract_pages_world document method full_text w :
  fst (extract_pages document method full_text w) = w.
Proof.
  revert full_text; induction document as [|p ps IH]; intros full_text; [done|].
  unfold extract_pages in *. rewrite run_for_each_cons, run_bind.
  unfold call_page at 1. destruct (String.eqb method "extractText"); [|done].
  rewrite !run_ret. apply IH.
Qed.

Lemma PdfFileReader_world p w :
  fst (PdfFileReader pdf_reader p w) = w.
Proof.
  unfold PdfFileReader. rewrite run_bind. unfold read_bytes.
  destruct (files w !! p) as [raw|]; [|done]. by destruct (pdf_reader raw).
Qed.

Lemma read_text_world p w : fst (read_text decode p w) = w.
Proof.
  unfold read_text. rewrite run_bind. unfold read_bytes.
  destruct (files w !! p) as [raw|]; [|done]. by destruct (decode raw).
Qed.

Lemma fold_left_pages document full_text :
  fold_left (fun acc p => acc +:+ page_text p) document full_text
  = full_text +:+ Shape.pages_text document.
Proof.
  revert full_text; induction document as [|p ps IH]; intros full_text.
  - simpl. by rewrite append_empty_r.
  - cbn [fold_left Shape.pages_text fold_right]. rewrite IH.
    apply append_assoc.
Qed.

(** A reference that does not begin with ["htt"] is read from the local
    file system only: whatever the outcome, the world after the call is
    the world before it; nothing was requested, written or logged. *)
Theorem local_reference_stays_local filepath w :
  String.eqb (PyStr.slice filepath (Some 0) (Some 3)) "htt" = false ->
  fst (Tokenizer.parse_document http_server http_download pdf_reader decode
         filepath w) = w.
Proof.
  intros Hlocal. rewrite parse_document_unfold, Hlocal.
  destruct (String.eqb (PyStr.slice filepath (Some (-3)) None) "pdf").
  - rewrite run_bind.
    pose proof (PdfFileReader_world filepath w) as Hw.
    destruct (PdfFileReader pdf_reader filepath w) as [w1 [document|e]];
      cbn [fst] in *; subst w1; [|done].
    rewrite run_bind.
    pose proof (extract_pages_world document "extractTexit" EmptyString w) as Hw.
    destruct (extract_pages document "extractTexit" EmptyString w)
      as [w1 [full_text|e]]; cbn [fst] in *; by subst w1.
  - rewrite run_bind.
    pose proof (read_text_world filepath w) as Hw.
    destruct (read_text decode filepath w) as [w1 [full_text|e]];
      cbn [fst] in *; by subst w1.
Qed.

(** A remote reference that is not a PDF and answers 200 yields the
    pieces of the response text, cut at the eleven delimiter characters;
    the GET is the only request. *)
Theorem remote_text_tokens filepath w body :
  PyStr.startswith "htt" filepath = true ->
  String.eqb (PyStr.slice filepath (Some (-3)) None) "pdf" = false ->
  http_server filepath = Response 200 body ->
  Tokenizer.parse_document http_server http_download pdf_reader decode
      filepath w
  = (Spec.sent w (HttpGet filepath),
     Returned (PyStr.re_split text_delims body)).
Proof.
  intros Hremote Hsuffix Hresp. rewrite parse_document_unfold.
  rewrite (startswith_htt _ Hremote). cbn [String.eqb Ascii.eqb Bool.eqb].
  rewrite run_bind. unfold requests_get. rewrite Hresp. cbn [fst snd Z.eqb Pos.eqb].
  by rewrite Hsuffix.
Qed.

(** A remote PDF that answers 200 is fetched a second time into a
    temporary file, which stays in the file system, and yields the pieces
    of the text of all its pages, taken together in page order. *)
Theorem remote_pdf_tokens filepath w body file_name raw pages :
  PyStr.startswith "htt" filepath = true ->
  String.eqb (PyStr.slice filepath (Some (-3)) None) "pdf" = true ->
  http_server filepath = Response 200 body ->
  http_download filepath = Some (file_name, raw) ->
  pdf_reader raw = Some pages ->
  Tokenizer.parse_document http_server http_download pdf_reader decode
      filepath w
  = (mkWorld (<[file_name := raw]> (files w))
       (net w ++ [HttpGet filepath; UrlRetrieve filepath]) (log w),
     Returned (PyStr.re_split pdf_delims (Shape.pages_text pages))).
Proof.
  intros Hremote Hsuffix Hresp Hdl Hread. rewrite parse_document_unfold.
  rewrite (startswith_htt _ Hremote). cbn [String.eqb Ascii.eqb Bool.eqb].
  rewrite run_bind. unfold requests_get. rewrite Hresp. cbn [fst snd Z.eqb Pos.eqb].
  rewrite Hsuffix, run_bind. unfold urlretrieve_tmp. rewrite Hdl.
  cbn [files net log]. rewrite run_bind. unfold PdfFileReader.
  rewrite run_bind.
  rewrite (run_read_bytes file_name _ raw) by (cbn [files]; apply lookup_insert_eq).
  rewrite Hread, run_ret, run_bind, extract_pages_extractText, fold_left_pages.
  rewrite run_ret. cbn [String.append]. by rewrite <- app_assoc.
Qed.

(** What a returned token list can be. *)
Lemma parse_document_tokens_shape filepath w tokens :
  snd (Tokenizer.parse_document http_server http_download pdf_reader decode
         filepath w) = Returned tokens ->
  tokens = [] \/
  (String.eqb (PyStr.slice filepath (Some (-3)) None) "pdf" = true /\
   exists text, tokens = PyStr.re_split pdf_delims text) \/
  (String.eqb (PyStr.slice filepath (Some (-3)) None) "pdf" = false /\
   exists text, tokens = PyStr.re_split text_delims text).
Proof.
  rewrite parse_document_unfold.
  destruct (String.eqb (PyStr.slice filepath (Some 0) (Some 3)) "htt").
  - intros (w1 & request & _ & H)%bind_returned.
    destruct (fst request =? 200).
    2:{ left. cbn in H. by injection H as <-. }
    destruct (String.eqb (PyStr.slice filepath (Some (-3)) None) "pdf").
    + apply bind_returned in H as (w2 & file_name & _ & H).
      apply bind_returned in H as (w3 & document & _ & H).
      apply bind_returned in H as (w4 & full_text & _ & H).
      cbn in H. injection H as <-. right; left. eauto.
    + cbn in H. injection H as <-. right; right. eauto.
  - destruct (String.eqb (PyStr.slice filepath (Some (-3)) None) "pdf").
    + intros (w2 & document & _ & H)%bind_returned.
      apply bind_returned in H as (w3 & full_text & _ & H).
      cbn in H. injection H as <-. right; left. eauto.
    + intros (w2 & full_text & _ & H)%bind_returned.
      cbn in H. injection H as <-. right; right. eauto.
Qed.

(** No token that [parse_document] returns contains a space, a newline
    or a tab; for a reference that does not end in ["pdf"], no token
    contains any of the eleven delimiter characters. *)
Theorem tokens_free_of_delimiters filepath w tokens :
  snd (Tokenizer.parse_document http_server http_download pdf_reader decode
         filepath w) = Returned tokens ->
  Forall (Shape.free_of Shape.pdf_space_chars) tokens /\
  (String.eqb (PyStr.slice filepath (Some (-3)) None) "pdf" = false ->
   Forall (Shape.free_of Shape.text_delim_chars) tokens).
Proof.
  intros [->|[[Hpdf [text ->]]|[Hpdf [text ->]]]]%parse_document_tokens_shape.
  - split; by constructor.
  - split; [apply pdf_tokens_free|]. congruence.
  - destruct (text_tokens_free text) as [Hall Hspace]. by split.
Qed.

(** A local PDF is read only when it has no page: it then yields the
    single empty token; with one page or more the call raises
    [AttributeError] for [extractTexit]. *)
Theorem local_pdf_needs_no_pages filepath w raw pages :
  String.eqb (PyStr.slice filepath (Some 0) (Some 3)) "htt" = false ->
  String.eqb (PyStr.slice filepath (Some (-3)) None) "pdf" = true ->
  files w !! filepath = Some raw ->
  pdf_reader raw = Some pages ->
  snd (Tokenizer.parse_document http_server http_download pdf_reader decode
         filepath w)
  = match pages with
    | [] => Returned [EmptyString]
    | _ :: _ => Raised (AttributeError "extractTexit")
    end.
Proof.
  intros Hlocal Hpdf Hfile Hread. destruct pages as [|page pages].
  - rewrite parse_document_unfold, Hlocal, Hpdf.
    rewrite run_bind. unfold PdfFileReader.
    by rewrite run_bind, (run_read_bytes _ _ _ Hfile), Hread, run_ret.
  - by rewrite (parse_document_local_pdf_raises _ _ _ _ _ _ _ _ _
                  Hlocal Hpdf Hfile Hread).
Qed.

End TokenizerBranches.

(* ===================================================================== *)
(** ** The scanner on every input *)
(* ===================================================================== *)

Section ScannerPaths.

Import Scanner.

Variable ebi_server : string -> HttpResponse.

(** The two ways the loop body can run. *)
Lemma scan_stem_cases t stem found w :
  scan_stem ebi_server t found stem w = (w, Returned found) \/
  exists i c,
    Spec.first_occurrence stem t i /\
    String.get (i + String.length stem) t = Some c /\
    PyStr.isnumeric_char c = true /\
    scan_stem ebi_server t found stem w =
      match ebi_server (ebi_url_of (PyStr.drop i t)) with
      | NoResponse =>
          (Spec.sent w (HttpGet (ebi_url_of (PyStr.drop i t))),
           Raised RequestException)
      | Response code _ =>
          if (code =? 200) && (6 <=? PyStr.len (PyStr.drop i t))
          then (Spec.sent w (HttpGet (ebi_url_of (PyStr.drop i t))),
                Returned (found ++ [Spec.stripped (PyStr.drop i t)]))
          else (Spec.logged (Spec.sent w (HttpGet (ebi_url_of (PyStr.drop i t))))
                  WARNING
                  (not_exist_warning (PyStr.drop i t)
                     (ebi_url_of (PyStr.drop i t))),
                Returned found)
      end.
Proof.
  assert (Hno : (~ exists i c, Spec.first_occurrence stem t i /\
                   String.get (i + String.length stem) t = Some c /\
                   PyStr.isnumeric_char c = true) ->
                scan_stem ebi_server t found stem w = (w, Returned found))
    by apply scan_stem_no_candidate.
  destruct (find_from_spec stem t 0) as [[_ Hnot]|(i & _ & Hocc & _)].
  { left. apply Hno. intros (i & c & [Hi _] & _). by rewrite Hnot in Hi. }
  destruct (String.get (i + String.length stem) t) as [c|] eqn:Hget.
  2:{ left. apply Hno. intros (j & d & Hocc' & Hget' & _).
      rewrite (first_occurrence_unique _ _ _ _ Hocc' Hocc) in Hget'. congruence. }
  destruct (PyStr.isnumeric_char c) eqn:Hnum.
  2:{ left. apply Hno. intros (j & d & Hocc' & Hget' & Hnum').
      rewrite (first_occurrence_unique _ _ _ _ Hocc' Hocc) in Hget'. congruence. }
  right. exists i, c. split_and!; try done.
  by rewrite (scan_stem_candidate _ _ _ _ _ _ _ Hocc Hget Hnum).
Qed.

Lemma last_match_in stem tokens t :
  Spec.last_match stem tokens = Some t -> t ∈ tokens.
Proof.
  unfold Spec.last_match. intros H%last_Some_elem_of.
  apply list_elem_of_In, List.filter_In in H as [H _].
  by apply list_elem_of_In.
Qed.

Lemma last_match_none stem tokens :
  (forall t, t ∈ tokens -> PyStr.contains stem t = false) ->
  Spec.last_match stem tokens = None.
Proof.
  intros Hnone. unfold Spec.last_match.
  replace (List.filter (PyStr.contains stem) tokens) with (@nil string); [done|].
  induction tokens as [|t ts IH]; [done|]. simpl.
  rewrite (Hnone t) by (by left). apply IH. intros t' Ht'. apply Hnone. by right.
Qed.

(** Tokens that contain no stem make [scrape_ebi_ids] return the empty
    list without a request, a warning or any other change of the world. *)
Theorem no_stem_no_request tokens proj_id_stems w :
  (forall t stem, t ∈ tokens -> stem ∈ proj_id_stems ->
                  PyStr.contains stem t = false) ->
  scrape_ebi_ids ebi_server tokens proj_id_stems w = (w, Returned []).
Proof.
  intros Hnone. unfold scrape_ebi_ids. cbv zeta.
  replace (stem_tokens tokens proj_id_stems) with (@nil (string * string));
    [done|].
  rewrite stem_tokens_fold. generalize (@nil (string * string)) as d.
  induction proj_id_stems as [|s ss IH]; intros d; [done|].
  cbn [fold_left]. unfold Spec.assign_last_match at 2.
  rewrite last_match_none.
  - apply IH. intros t stem Ht Hstem. apply Hnone; [done|by right].
  - intros t Ht. apply Hnone; [done|by left].
Qed.

Lemma for_each_outcome {A B} (body : B -> A -> M B) xs :
  (forall acc x w, Shape.returned_or_request_failed (snd (body acc x w))) ->
  forall acc w, Shape.returned_or_request_failed (snd (for_each xs body acc w)).
Proof.
  intros Hbody. induction xs as [|x xs IH]; intros acc w; [done|].
  rewrite run_for_each_cons. specialize (Hbody acc x w).
  destruct (body acc x w) as [w' [acc'|e]]; [apply IH|done].
Qed.

Lemma scan_stem_outcome t found stem w :
  Shape.returned_or_request_failed (snd (scan_stem ebi_server t found stem w)).
Proof.
  destruct (scan_stem_cases t stem found w) as [->|(i & c & _ & _ & _ & ->)];
    [done|].
  destruct (ebi_server _) as [code body|]; [|done].
  by destruct ((code =? 200) && _).
Qed.

(** The only exception [scrape_ebi_ids] lets out is that of a request
    that got no response: the index [start + len(stem)] is always inside
    the token, so no [IndexError] arises, and a status other than 200
    does not stop the scan. *)
Theorem scan_stops_only_on_failed_request tokens proj_id_stems w :
  Shape.returned_or_request_failed
    (snd (scrape_ebi_ids ebi_server tokens proj_id_stems w)).
Proof.
  unfold scrape_ebi_ids. cbv zeta. apply for_each_outcome.
  intros acc t w'. unfold scan_token. apply for_each_outcome.
  intros acc' stem w''. apply scan_stem_outcome.
Qed.

(** A loop whose body sends at most [c] requests, all of them GETs that
    satisfy [U], and leaves the files alone. *)
Lemma for_each_requests {A B} (c : nat) (U : string -> Prop)
  (body : B -> A -> M B) xs :
  (forall acc x w, exists urls,
      net (fst (body acc x w)) = net w ++ map HttpGet urls /\
      (length urls <= c)%nat /\ Forall U urls /\
      files (fst (body acc x w)) = files w) ->
  forall acc w, exists urls,
      net (fst (for_each xs body acc w)) = net w ++ map HttpGet urls /\
      (length urls <= c * length xs)%nat /\ Forall U urls /\
      files (fst (for_each xs body acc w)) = files w.
Proof.
  intros Hbody. induction xs as [|x xs IH]; intros acc w.
  - exists []. rewrite run_for_each_nil. simpl. rewrite app_nil_r.
    split_and!; [done|lia|done|done].
  - rewrite run_for_each_cons.
    destruct (Hbody acc x w) as (urls1 & Hnet1 & Hlen1 & HU1 & Hfiles1).
    destruct (body acc x w) as [w' [acc'|e]]; cbn [fst] in *.
    + destruct (IH acc' w') as (urls2 & Hnet2 & Hlen2 & HU2 & Hfiles2).
      exists (urls1 ++ urls2). rewrite Hnet2, Hnet1, Hfiles2, Hfiles1.
      rewrite map_app, app_assoc, length_app. split_and!; [done| |by apply Forall_app|done].
      cbn [length]. lia.
    + exists urls1. split_and!; [done| |done|done]. cbn [length]. lia.
Qed.

Lemma scan_stem_requests t found stem w :
  exists urls,
    net (fst (scan_stem ebi_server t found stem w)) = net w ++ map HttpGet urls /\
    (length urls <= 1)%nat /\
    Forall (fun u => exists test_study, u = ebi_url_of test_study) urls /\
    files (fst (scan_stem ebi_server t found stem w)) = files w.
Proof.
  destruct (scan_stem_cases t stem found w) as [->|(i & c & _ & _ & _ & ->)].
  - exists []. simpl. rewrite app_nil_r. split_and!; [done|lia|done|done].
  - exists [ebi_url_of (PyStr.drop i t)].
    assert (HU : Forall (fun u => exists test_study, u = ebi_url_of test_study)
                   [ebi_url_of (PyStr.drop i t)])
      by (constructor; [eauto|constructor]).
    destruct (ebi_server _) as [code body|]; [|by split_and!].
    destruct ((code =? 200) && _); by split_and!.
Qed.

Lemma dict_set_length k v d : (length (dict_set k v d) <= S (length d))%nat.
Proof.
  induction d as [|[k' v'] d IH]; simpl; [lia|].
  destruct (String.eqb k k'); simpl; lia.
Qed.

Lemma stem_tokens_length tokens stems :
  (length (stem_tokens tokens stems) <= length stems)%nat.
Proof.
  rewrite stem_tokens_fold.
  assert (H : forall d,
             (length (fold_left (Spec.assign_last_match tokens) stems d)
              <= length d + length stems)%nat).
  { induction stems as [|s ss IH]; intros d; cbn [fold_left length]; [lia|].
    etransitivity; [apply IH|]. unfold Spec.assign_last_match.
    destruct (Spec.last_match s tokens); [|lia].
    pose proof (dict_set_length s s0 d). lia. }
  apply (H []).
Qed.

(** One scan sends at most [n * n] requests for [n] stems, each of them
    a GET of the existence-check URL of some candidate, and changes no
    file; this holds also when the scan ends in an exception. *)
Theorem requests_bounded_by_stems tokens proj_id_stems w :
  let r := scrape_ebi_ids ebi_server tokens proj_id_stems w in
  exists urls,
    net (fst r) = net w ++ map HttpGet urls /\
    (length urls <= length proj_id_stems * length proj_id_stems)%nat /\
    Forall (fun u => exists test_study, u = ebi_url_of test_study) urls /\
    files (fst r) = files w.
Proof.
  intros r. subst r. unfold scrape_ebi_ids. cbv zeta.
  destruct (for_each_requests (1 * length proj_id_stems)
              (fun u => exists test_study, u = ebi_url_of test_study)
              (scan_token ebi_server proj_id_stems)
              (dict_values (stem_tokens tokens proj_id_stems))
              (fun acc t w' =>
                 for_each_requests 1 _ (scan_stem ebi_server t) proj_id_stems
                   (scan_stem_requests t) acc w')
              [] w) as (urls & Hnet & Hlen & HU & Hfiles).
  exists urls. split_and!; try done.
  unfold dict_values in Hlen. rewrite length_map in Hlen.
  pose proof (stem_tokens_length tokens proj_id_stems). nia.
Qed.

Lemma for_each_Forall {A} (P : string -> Prop)
  (body : list string -> A -> M (list string)) xs :
  (forall acc x w acc', x ∈ xs -> Forall P acc ->
      snd (body acc x w) = Returned acc' -> Forall P acc') ->
  forall acc w res, Forall P acc ->
    snd (for_each xs body acc w) = Returned res -> Forall P res.
Proof.
  induction xs as [|x xs IH]; intros Hbody acc w res Hacc.
  - rewrite run_for_each_nil. by intros [= <-].
  - rewrite run_for_each_cons.
    specialize (Hbody acc x w) as Hx.
    destruct (body acc x w) as [w' [acc'|e]]; [|discriminate].
    apply IH.
    + intros acc0 x0 w0 acc0' Hin. apply Hbody. by right.
    + apply Hx; [by left|done|done].
Qed.

Lemma scan_stem_confirmed tokens stems t stem found w found' :
  t ∈ tokens -> stem ∈ stems ->
  Forall (Shape.confirmed ebi_server tokens stems) found ->
  snd (scan_stem ebi_server t found stem w) = Returned found' ->
  Forall (Shape.confirmed ebi_server tokens stems) found'.
Proof.
  intros Ht Hstem Hfound.
  destruct (scan_stem_cases t stem found w)
    as [->|(i & c & Hocc & Hget & Hnum & ->)].
  { by intros [= <-]. }
  destruct (ebi_server (ebi_url_of (PyStr.drop i t))) as [code body|] eqn:Hsrv;
    [|discriminate].
  destruct (Z.eqb_spec code 200) as [->|_]; cbn [andb].
  2:{ by intros [= <-]. }
  destruct (Z.leb_spec 6 (PyStr.len (PyStr.drop i t))) as [Hlen|_].
  2:{ by intros [= <-]. }
  intros [= <-]. apply Forall_app; split; [done|].
  constructor; [|constructor].
  exists t, stem, i, c, body. unfold PyStr.len in Hlen. split_and!; try done. lia.
Qed.

Lemma found_confirmed tokens stems w found :
  snd (scrape_ebi_ids ebi_server tokens stems w) = Returned found ->
  Forall (Shape.confirmed ebi_server tokens stems) found.
Proof.
  unfold scrape_ebi_ids. cbv zeta.
  apply for_each_Forall; [|constructor].
  intros acc t w' acc' Ht Hacc. unfold scan_token.
  apply for_each_Forall; [|done].
  intros acc0 stem w0 acc0' Hstem Hacc0.
  apply scan_stem_confirmed; [|done|done].
  unfold dict_values in Ht. apply list_elem_of_fmap in Ht as ([k v] & -> & Hin).
  apply stem_tokens_item in Hin as [_ Hlast]. by apply (last_match_in k).
Qed.

(** Every accession that [scrape_ebi_ids] returns is the stripped form
    of a candidate of at least six characters, cut from one of the tokens
    at the first occurrence of one of the stems before a numeric
    character, and the server answered 200 to the existence check of
    that candidate. *)
Theorem returned_accessions_are_confirmed tokens proj_id_stems w found :
  snd (scrape_ebi_ids ebi_server tokens proj_id_stems w) = Returned found ->
  Forall (Shape.confirmed ebi_server tokens proj_id_stems) found.
Proof. apply found_confirmed. Qed.

End ScannerPaths.

Section StripFacts.

Import PyStr.

Lemma rstrip_keep p a c b :
  p c = false -> rstrip p (a +:+ String c b) = a +:+ String c (rstrip p b).
Proof.
  intros Hc. induction a as [|x a IH].
  - change (rstrip p (String c b) = String c (rstrip p b)).
    cbn [rstrip]. rewrite Hc. by destruct (rstrip p b).
  - change (rstrip p (String x (a +:+ String c b))
            = String x (a +:+ String c (rstrip p b))).
    cbn [rstrip]. rewrite IH.
    by destruct a.
Qed.

Lemma strip_by_keep p x a c b :
  p x = false -> p c = false ->
  strip_by p (String x a +:+ String c b)
  = String x a +:+ String c (rstrip p b).
Proof.
  intros Hx Hc. unfold strip_by.
  change (String x a +:+ String c b) with (String x (a +:+ String c b)) at 1.
  cbn [lstrip]. rewrite Hx.
  change (String x (a +:+ String c b)) with (String x a +:+ String c b).
  by apply rstrip_keep.
Qed.

Lemma kept_char_inv c :
  Shape.kept_char c = true ->
  isspace_char c = false /\
  char_in c "," = false /\ char_in c "." = false /\ char_in c "-" = false.
Proof.
  unfold Shape.kept_char. intros [Hsp Hpunct]%andb_prop.
  apply negb_true_iff in Hsp, Hpunct. split; [done|].
  cbn [char_in] in *.
  destruct (Ascii.eqb c ","); [done|].
  destruct (Ascii.eqb c "."); [done|].
  by destruct (Ascii.eqb c "-").
Qed.

(** A numeric character is neither white space nor punctuation. *)
Lemma numeric_kept c : isnumeric_char c = true -> Shape.kept_char c = true.
Proof.
  destruct c as [[] [] [] [] [] [] [] []]; vm_compute; congruence.
Qed.

(** The stripping chain leaves a candidate's stem and the numeric
    character behind it in place. *)
Lemma stripped_keeps_head x a c b :
  Shape.kept_char x = true -> Shape.kept_char c = true ->
  exists rest, Spec.stripped (String x a +:+ String c b)
               = String x a +:+ String c rest.
Proof.
  intros (Hx1 & Hx2 & Hx3 & Hx4)%kept_char_inv.
  intros (Hc1 & Hc2 & Hc3 & Hc4)%kept_char_inv.
  unfold Spec.stripped, strip, strip_chars.
  rewrite (strip_by_keep isspace_char) by done.
  rewrite (strip_by_keep (fun c0 => char_in c0 ",")) by done.
  rewrite (strip_by_keep (fun c0 => char_in c0 ".")) by done.
  rewrite (strip_by_keep (fun c0 => char_in c0 "-")) by done.
  eauto.
Qed.

Lemma startswith_append p s :
  startswith p s = true -> s = p +:+ drop (String.length p) s.
Proof.
  revert s; induction p as [|x p IH]; intros s; [done|].
  destruct s as [|y s]; [done|]. cbn [startswith].
  destruct (Ascii.eqb_spec x y) as [<-|]; [|done].
  intros H. change (String x s = String x (p +:+ drop (String.length p) s)).
  f_equal. by apply IH.
Qed.

Lemma get_drop i n t : String.get (i + n) t = String.get n (drop i t).
Proof.
  revert t; induction i as [|i IH]; intros t; [done|].
  destruct t as [|y t]; [by destruct n|]. apply IH.
Qed.

Lemma get_0_inv s c : String.get 0 s = Some c -> exists rest, s = String c rest.
Proof. destruct s as [|y s]; [done|]. intros [= ->]. eauto. Qed.

Lemma get_length_append p tail :
  String.get (String.length p) (p +:+ tail) = String.get 0 tail.
Proof. induction p as [|x p IH]; [done|]. exact IH. Qed.

(** A candidate is its stem, a numeric character, and the rest. *)
Lemma candidate_shape stem t i c :
  Spec.first_occurrence stem t i ->
  String.get (i + String.length stem) t = Some c ->
  exists rest, drop i t = stem +:+ String c rest.
Proof.
  intros [Hocc _] Hget. rewrite get_drop in Hget.
  rewrite (startswith_append _ _ Hocc) in Hget |- *.
  rewrite get_length_append in Hget.
  destruct (get_0_inv _ _ Hget) as [rest ->]. eauto.
Qed.

End StripFacts.

Section ScannerShape.

Import Scanner.

Variable ebi_server : string -> HttpResponse.

(** When every stem begins with a character that is neither white space
    nor one of [,], [.] and [-] (as the four default stems do), every
    accession that [scrape_ebi_ids] returns begins with one of the stems,
    followed at once by a numeric character. *)
Theorem returned_accessions_start_with_stem tokens proj_id_stems w found :
  (forall stem, stem ∈ proj_id_stems ->
     exists x rest, stem = String x rest /\ Shape.kept_char x = true) ->
  snd (scrape_ebi_ids ebi_server tokens proj_id_stems w) = Returned found ->
  Forall (fun a => exists stem c rest,
                     stem ∈ proj_id_stems /\
                     PyStr.isnumeric_char c = true /\
                     a = stem +:+ String c rest) found.
Proof.
  intros Hstems Hret. apply found_confirmed in Hret.
  eapply Forall_impl; [exact Hret|]. cbv beta.
  intros a (t & stem & i & c & body & _ & Hstem & Hocc & Hget & Hnum & _ & _ & ->).
  destruct (candidate_shape _ _ _ _ Hocc Hget) as [rest ->].
  destruct (Hstems stem Hstem) as (x & stem' & -> & Hx).
  destruct (stripped_keeps_head x stem' c rest Hx (numeric_kept c Hnum))
    as [rest' ->].
  by exists (String x stem'), c, rest'.
Qed.

End ScannerShape.

(* ===================================================================== *)
(** ** get_ebi_ids: properties *)
(* ===================================================================== *)

Section AccessionFacts.

Import Accessions.

Lemma run_bind_E {A B} (m : E A) (k : A -> E B) w :
  (m ≫= k) w =
    match m w with
    | (w', Ok a) => k a w'
    | (w', Err e) => (w', Err e)
    end.
Proof. reflexivity. Qed.

Lemma run_pure_step {A} (r : Res A) w : pure_step r w = (w, r).
Proof. reflexivity. Qed.

Lemma py_in_dict k entries :
  py_in k (VDict entries) = Ok (bool_decide (is_Some (entry k entries))).
Proof. reflexivity. Qed.

Lemma has_key_true k entries v :
  entry k entries = Some v -> bool_decide (is_Some (entry k entries)) = true.
Proof. intros H. apply bool_decide_eq_true_2. eauto. Qed.

Lemma has_key_false k entries :
  entry k entries = None -> bool_decide (is_Some (entry k entries)) = false.
Proof. intros H. apply bool_decide_eq_false_2. rewrite H. by intros [? ?]. Qed.

(** The walk down to the identifiers. *)
Lemma walk_to_identifiers top inner entries ids {B}
  (k : PyVal -> E B) w :
  identifiers_at top inner entries ids ->
  (study_set ← pure_step (getitem (VDict entries) top);
   study ← pure_step (getitem study_set inner);
   id_dict ← pure_step (getitem study "IDENTIFIERS");
   k id_dict) w = k (VDict ids) w.
Proof.
  intros (e1 & e2 & H1 & H2 & H3).
  rewrite !run_bind_E, run_pure_step. cbn [getitem]. rewrite H1.
  rewrite !run_bind_E, run_pure_step. cbn [getitem]. rewrite H2.
  rewrite !run_bind_E, run_pure_step. cbn [getitem]. by rewrite H3.
Qed.

Lemma keep_containing_strs k l :
  keep_containing k (strs l) = Ok (strs (List.filter (PyStr.contains k) l)).
Proof.
  unfold strs. induction l as [|x l IH]; [done|].
  cbn [map keep_containing py_in List.filter]. rewrite IH.
  by destruct (PyStr.contains k x).
Qed.

Lemma join_empty_strs l :
  join_empty (strs l) = Ok (fold_right String.append EmptyString l).
Proof.
  unfold strs. induction l as [|x l IH]; [done|].
  cbn [map join_empty fold_right]. by rewrite IH.
Qed.

(** A dictionary with neither a ["STUDY_SET"] nor a ["PROJECT_SET"] key
    gives the pair [(False, False)] and one warning. *)
Theorem no_record_no_accessions entries w :
  entry "STUDY_SET" entries = None ->
  entry "PROJECT_SET" entries = None ->
  get_ebi_ids (VDict entries) w
  = (Spec.logged w WARNING "No study information found.", Ok (VFalse, VFalse)).
Proof.
  intros Hs Hp. unfold get_ebi_ids.
  rewrite run_bind_E, run_pure_step, py_in_dict, (has_key_false _ _ Hs).
  rewrite run_bind_E, run_pure_step, py_in_dict, (has_key_false _ _ Hp).
  reflexivity.
Qed.

(** When the key ["STUDY_SET"] is present, nothing else of the dictionary
    is looked at: two dictionaries with the same study set give the same
    result, whatever they hold under ["PROJECT_SET"]. *)
Theorem study_set_shadows_project_set entries entries' v w :
  entry "STUDY_SET" entries = Some v ->
  entry "STUDY_SET" entries' = Some v ->
  get_ebi_ids (VDict entries) w = get_ebi_ids (VDict entries') w.
Proof.
  intros H H'. unfold get_ebi_ids.
  rewrite !(run_bind_E (pure_step (py_in _ _))), !run_pure_step, !py_in_dict.
  rewrite (has_key_true _ _ _ H), (has_key_true _ _ _ H').
  rewrite !(run_bind_E (pure_step (getitem _ _))), !run_pure_step.
  cbn [getitem]. by rewrite H, H'.
Qed.

(** A study with a string accession and no ["SECONDARY_ID"] gets its own
    accession as the project accession, with a warning. *)
Theorem study_without_project_id entries ids study w :
  identifiers_at "STUDY_SET" "STUDY" entries ids ->
  entry "PRIMARY_ID" ids = Some (VStr study) ->
  entry "SECONDARY_ID" ids = None ->
  get_ebi_ids (VDict entries) w
  = (Spec.logged w WARNING ("No project ID for study: " +:+ study),
     Ok (VStr study, VStr study)).
Proof.
  intros Hids Hprim Hsec. unfold get_ebi_ids.
  pose proof Hids as (e1 & _ & Htop & _).
  rewrite run_bind_E, run_pure_step, py_in_dict, (has_key_true _ _ _ Htop).
  rewrite (walk_to_identifiers _ _ _ _ _ _ Hids).
  rewrite run_bind_E, run_pure_step. cbn [getitem]. rewrite Hprim.
  rewrite run_bind_E, run_pure_step, py_in_dict, (has_key_false _ _ Hsec).
  reflexivity.
Qed.

(** A study whose ["SECONDARY_ID"] is a list of strings gets as project
    accession the strings that contain ["PRJ"], concatenated in order
    without a separator: the empty string when there is none, and one
    run-together string when there are several.  Nothing is logged. *)
Theorem secondary_list_is_joined entries ids primary l w :
  identifiers_at "STUDY_SET" "STUDY" entries ids ->
  entry "PRIMARY_ID" ids = Some primary ->
  entry "SECONDARY_ID" ids = Some (VList (strs l)) ->
  get_ebi_ids (VDict entries) w
  = (w, Ok (primary, VStr (concat_containing "PRJ" l))).
Proof.
  intros Hids Hprim Hsec. unfold get_ebi_ids.
  pose proof Hids as (e1 & _ & Htop & _).
  rewrite run_bind_E, run_pure_step, py_in_dict, (has_key_true _ _ _ Htop).
  rewrite (walk_to_identifiers _ _ _ _ _ _ Hids).
  rewrite run_bind_E, run_pure_step. cbn [getitem]. rewrite Hprim.
  rewrite run_bind_E, run_pure_step, py_in_dict, (has_key_true _ _ _ Hsec).
  rewrite run_bind_E, run_pure_step. cbn [getitem]. rewrite Hsec.
  rewrite run_bind_E, run_pure_step, keep_containing_strs.
  rewrite run_bind_E, run_pure_step, join_empty_strs.
  reflexivity.
Qed.

(** A project with a string accession and no ["SECONDARY_ID"], in a
    dictionary without a study set, gives [False] as the study accession,
    with a warning. *)
Theorem project_without_study_id entries ids project w :
  entry "STUDY_SET" entries = None ->
  identifiers_at "PROJECT_SET" "PROJECT" entries ids ->
  entry "PRIMARY_ID" ids = Some (VStr project) ->
  entry "SECONDARY_ID" ids = None ->
  get_ebi_ids (VDict entries) w
  = (Spec.logged w WARNING ("No study ID for project: " +:+ project),
     Ok (VFalse, VStr project)).
Proof.
  intros Hs Hids Hprim Hsec. unfold get_ebi_ids.
  pose proof Hids as (e1 & _ & Htop & _).
  rewrite run_bind_E, run_pure_step, py_in_dict, (has_key_false _ _ Hs).
  rewrite run_bind_E, run_pure_step, py_in_dict, (has_key_true _ _ _ Htop).
  rewrite (walk_to_identifiers _ _ _ _ _ _ Hids).
  rewrite run_bind_E, run_pure_step. cbn [getitem]. rewrite Hprim.
  rewrite run_bind_E, run_pure_step, py_in_dict, (has_key_false _ _ Hsec).
  reflexivity.
Qed.

(** Identifiers without a ["PRIMARY_ID"] make the call raise [KeyError]
    for that key, for a study as for a project; nothing is logged. *)
Theorem missing_primary_id_raises entries ids w :
  entry "PRIMARY_ID" ids = None ->
  (identifiers_at "STUDY_SET" "STUDY" entries ids \/
   (entry "STUDY_SET" entries = None /\
    identifiers_at "PROJECT_SET" "PROJECT" entries ids)) ->
  get_ebi_ids (VDict entries) w = (w, Err (KeyError "PRIMARY_ID")).
Proof.
  intros Hprim [Hids|[Hs Hids]]; unfold get_ebi_ids;
    pose proof Hids as (e1 & _ & Htop & _).
  - rewrite run_bind_E, run_pure_step, py_in_dict, (has_key_true _ _ _ Htop).
    rewrite (walk_to_identifiers _ _ _ _ _ _ Hids).
    rewrite run_bind_E, run_pure_step. cbn [getitem]. by rewrite Hprim.
  - rewrite run_bind_E, run_pure_step, py_in_dict, (has_key_false _ _ Hs).
    rewrite run_bind_E, run_pure_step, py_in_dict, (has_key_true _ _ _ Htop).
    rewrite (walk_to_identifiers _ _ _ _ _ _ Hids).
    rewrite run_bind_E, run_pure_step. cbn [getitem]. by rewrite Hprim.
Qed.

(** A study whose accession is not a string (a dictionary, as for an
    element with attributes) and that has no ["SECONDARY_ID"] makes the
    call raise [TypeError] while it builds the warning; the warning is
    not logged. *)
Theorem warning_needs_string_accession entries ids primary w :
  identifiers_at "STUDY_SET" "STUDY" entries ids ->
  entry "PRIMARY_ID" ids = Some primary ->
  (forall s, primary <> VStr s) ->
  entry "SECONDARY_ID" ids = None ->
  get_ebi_ids (VDict entries) w = (w, Err TypeError).
Proof.
  intros Hids Hprim Hnot Hsec. unfold get_ebi_ids.
  pose proof Hids as (e1 & _ & Htop & _).
  rewrite run_bind_E, run_pure_step, py_in_dict, (has_key_true _ _ _ Htop).
  rewrite (walk_to_identifiers _ _ _ _ _ _ Hids).
  rewrite run_bind_E, run_pure_step. cbn [getitem]. rewrite Hprim.
  rewrite run_bind_E, run_pure_step, py_in_dict, (has_key_false _ _ Hsec).
  rewrite run_bind_E, run_pure_step.
  destruct primary as [| |s| |]; try done. by destruct (Hnot s).
Qed.

End AccessionFacts.

(* ===================================================================== *)
(** ** setup_output_dir: properties *)
(* ===================================================================== *)

Section OutputDirFacts.

Import OutputDir.

Variable Tree : Type.
Variable path_exists : Tree -> string -> bool.
Variable makedirs : Tree -> string -> Tree * Res unit.

Lemma item_last_append s :
  PyStr.item (s +:+ "/") (-1) = Some "/"%char.
Proof.
  unfold PyStr.item, PyStr.len.
  assert (Hlen : String.length (s +:+ "/") = S (String.length s)).
  { induction s as [|x s IH]; [done|].
    change (S (String.length (s +:+ "/")) = S (S (String.length s))).
    by rewrite IH. }
  rewrite Hlen. cbn [Z.ltb Z.compare].
  replace (Z.of_nat (S (String.length s)) + -1) with (Z.of_nat (String.length s))
    by lia.
  destruct (Z.leb_spec 0 (Z.of_nat (String.length s))); [|lia].
  destruct (Z.ltb_spec (Z.of_nat (String.length s))
              (Z.of_nat (S (String.length s)))); [|lia].
  cbn [andb]. rewrite Nat2Z.id. apply (get_length_append s "/").
Qed.

(** The path after the first statement of [setup_output_dir]. *)
Lemma normalised_path output_dir last :
  PyStr.item output_dir (-1) = Some last ->
  let p := if negb (String.eqb (String last EmptyString) "/")
           then output_dir +:+ "/" else output_dir in
  Shape.ends_in_slash p /\
  (p = output_dir \/ p = output_dir +:+ "/") /\
  (Shape.ends_in_slash output_dir -> p = output_dir).
Proof.
  intros Hlast p. subst p. unfold Shape.ends_in_slash. rewrite Hlast.
  destruct (String.eqb_spec (String last EmptyString) "/") as [Heq|Hne];
    cbn [negb].
  - injection Heq as ->. split_and!; [done|by left|done].
  - split_and!; [apply item_last_append|by right|].
    intros [= ->]. by destruct Hne.
Qed.

(** The empty path is refused with [IndexError] before the directory
    tree is looked at. *)
Lemma empty_output_dir_raises tree :
  setup_output_dir Tree path_exists makedirs EmptyString tree
  = (tree, Err (Std IndexError)).
Proof. reflexivity. Qed.

Lemma output_dir_ends_in_slash_aux output_dir tree p :
  snd (setup_output_dir Tree path_exists makedirs output_dir tree) = Ok p ->
  Shape.ends_in_slash p.
Proof.
  unfold setup_output_dir.
  destruct (PyStr.item output_dir (-1)) as [last|] eqn:Hlast; [|discriminate].
  pose proof (normalised_path output_dir last Hlast) as Hnorm. cbv zeta in *.
  set (q := if negb (String.eqb (String last EmptyString) "/")
            then output_dir +:+ "/" else output_dir) in *.
  destruct (negb (path_exists tree q)).
  - destruct (makedirs tree q) as [tree' [[]|e]]; [|discriminate].
    intros [= <-]. apply Hnorm.
  - intros [= <-]. apply Hnorm.
Qed.

(** A path that [setup_output_dir] returns ends in a slash: it is the
    given path when that already ended in a slash, and the given path
    with one slash added otherwise. *)
Theorem output_dir_ends_in_slash output_dir tree p :
  snd (setup_output_dir Tree path_exists makedirs output_dir tree) = Ok p ->
  Shape.ends_in_slash p /\
  (p = output_dir \/ p = output_dir +:+ "/") /\
  (Shape.ends_in_slash output_dir -> p = output_dir).
Proof.
  unfold setup_output_dir.
  destruct (PyStr.item output_dir (-1)) as [last|] eqn:Hlast; [|discriminate].
  pose proof (normalised_path output_dir last Hlast) as Hnorm. cbv zeta in *.
  set (q := if negb (String.eqb (String last EmptyString) "/")
            then output_dir +:+ "/" else output_dir) in *.
  destruct (negb (path_exists tree q)).
  - destruct (makedirs tree q) as [tree' [[]|e]]; [|discriminate].
    by intros [= <-].
  - by intros [= <-].
Qed.

(** When [makedirs] makes the path exist, a second call on the returned
    path returns it again and does not call [makedirs]: the tree stays
    as the first call left it. *)
Theorem setup_output_dir_idempotent output_dir tree tree' p :
  (forall t q t', makedirs t q = (t', Ok tt) -> path_exists t' q = true) ->
  setup_output_dir Tree path_exists makedirs output_dir tree = (tree', Ok p) ->
  setup_output_dir Tree path_exists makedirs p tree' = (tree', Ok p).
Proof.
  intros Hpost Hfirst.
  assert (Hp : Shape.ends_in_slash p /\ path_exists tree' p = true).
  { pose proof (output_dir_ends_in_slash_aux output_dir tree p) as Haux.
    rewrite Hfirst in Haux. split; [by apply Haux|].
    revert Hfirst. unfold setup_output_dir.
    destruct (PyStr.item output_dir (-1)) as [last|]; [|discriminate].
    cbv zeta.
    set (q := if negb (String.eqb (String last EmptyString) "/")
              then output_dir +:+ "/" else output_dir).
    destruct (path_exists tree q) eqn:Hex; cbn [negb].
    - by intros [= <- <-].
    - destruct (makedirs tree q) as [t' [[]|e]] eqn:Hmk; [|discriminate].
      intros [= <- <-]. by apply (Hpost tree q t'). }
  destruct Hp as [Hslash Hex]. unfold setup_output_dir.
  unfold Shape.ends_in_slash in Hslash. rewrite Hslash.
  cbn [String.eqb Ascii.eqb Bool.eqb negb]. by rewrite Hex.
Qed.

End OutputDirFacts.

(* ===================================================================== *)
(** ** load_project_file: properties *)
(* ===================================================================== *)

Section StripIdempotent.

Import PyStr.

Lemma rstrip_idem p s : rstrip p (rstrip p s) = rstrip p s.
Proof.
  induction s as [|c s IH]; [done|]. cbn [rstrip].
  destruct (rstrip p s) as [|d r] eqn:E.
  - destruct (p c) eqn:Hc; [done|]. cbn [rstrip]. by rewrite Hc.
  - cbn [rstrip] in *. by rewrite IH.
Qed.

Lemma lstrip_head p s c r : lstrip p s = String c r -> p c = false.
Proof.
  induction s as [|x s IH]; [done|]. cbn [lstrip].
  destruct (p x) eqn:Hx; [done|]. by intros [= <- _].
Qed.

Lemma rstrip_head p c s :
  rstrip p (String c s) = EmptyString \/
  exists r, rstrip p (String c s) = String c r.
Proof.
  cbn [rstrip]. destruct (rstrip p s); [|eauto].
  destruct (p c); eauto.
Qed.

Lemma strip_by_idem p s : strip_by p (strip_by p s) = strip_by p s.
Proof.
  unfold strip_by. destruct (lstrip p s) as [|c r] eqn:E; [done|].
  pose proof (lstrip_head _ _ _ _ E) as Hc.
  destruct (rstrip_head p c r) as [->|[r' Hr']]; [done|].
  rewrite Hr'. cbn [lstrip]. rewrite Hc, <- Hr'. apply rstrip_idem.
Qed.

End StripIdempotent.

Section ProjectFacts.

Import Project.

Variable read_csv : string -> bool -> Res DataFrame.

Lemma unique_go_elem seen cells x :
  x ∈ unique_go seen cells <-> x ∈ cells /\ x ∉ seen.
Proof.
  revert seen; induction cells as [|c cells IH]; intros seen; cbn [unique_go].
  - split; [by intros ?%elem_of_nil|by intros [?%elem_of_nil _]].
  - case_bool_decide as Hc.
    + rewrite IH, elem_of_cons. split; [intros [? ?]; auto|].
      intros [[->|?] ?]; [done|auto].
    + rewrite !elem_of_cons, IH, elem_of_cons. split.
      * intros [->|[? Hn]]; [auto|]. split; [auto|]. intros ?. apply Hn. auto.
      * intros [[->|?] Hn]; [auto|].
        destruct (decide (x = c)) as [->|Hne]; [auto|].
        right. split; [done|]. intros [?|?]; done.
Qed.

Lemma unique_elem cells x : x ∈ unique cells <-> x ∈ cells.
Proof.
  unfold unique. rewrite unique_go_elem. split; [by intros [? _]|].
  intros ?. split; [done|]. by intros ?%elem_of_nil.
Qed.

Lemma unique_go_NoDup seen cells : NoDup (unique_go seen cells).
Proof.
  revert seen; induction cells as [|c cells IH]; intros seen; cbn [unique_go].
  - constructor.
  - case_bool_decide as Hc; [apply IH|].
    constructor; [|apply IH]. rewrite unique_go_elem.
    intros [_ Hn]. apply Hn. by left.
Qed.

(** [strip_all] returns exactly on a list of strings. *)
Lemma strip_all_ok cells l :
  strip_all cells = Ok l ->
  exists l0, cells = cstrs l0 /\ l = map PyStr.strip l0.
Proof.
  revert l; induction cells as [|c cells IH]; intros l; cbn [strip_all].
  - intros [= <-]. by exists [].
  - destruct c as [s| |z]; try discriminate.
    destruct (strip_all cells) as [l'|e]; [|discriminate].
    intros [= <-]. destruct (IH l' eq_refl) as (l0 & -> & ->).
    by exists (s :: l0).
Qed.

Lemma strip_all_non_string cells c :
  c ∈ cells -> (forall s, c <> CStr s) ->
  strip_all cells = Err (Std (AttributeError "strip")).
Proof.
  intros Hin Hnot. induction cells as [|d cells IH]; [by apply elem_of_nil in Hin|].
  cbn [strip_all]. destruct d as [s| |z]; try done.
  apply elem_of_cons in Hin as [->|Hin]; [by destruct (Hnot s)|].
  by rewrite (IH Hin).
Qed.

(** The run on a file whose header has a [study_id] column. *)
Lemma load_with_header filepath df cells :
  read_csv filepath true = Ok df ->
  has_column "study_id" df = true ->
  column "study_id" df = Ok cells ->
  load_project_file read_csv filepath = strip_all (unique cells).
Proof.
  intros Hread Hhas Hcol. unfold load_project_file.
  rewrite Hread, Hhas. cbn [negb]. by rewrite Hcol.
Qed.

(** What [load_project_file] can return. *)
Lemma load_ok filepath l :
  load_project_file read_csv filepath = Ok l ->
  exists cells l0,
    unique cells = cstrs l0 /\ l = map PyStr.strip l0.
Proof.
  unfold load_project_file.
  destruct (read_csv filepath true) as [df|e]; [|discriminate].
  match goal with
  | |- context [match ?r with Ok _ => _ | Err _ => _ end = _] =>
      destruct r as [df'|e]; [|discriminate]
  end.
  destruct (column "study_id" df') as [cells|e]; [|discriminate].
  cbv zeta. intros (l0 & H1 & H2)%strip_all_ok. eauto.
Qed.

(** Every identifier that [load_project_file] returns is stripped:
    stripping it again changes nothing. *)
Theorem project_ids_are_stripped filepath l :
  load_project_file read_csv filepath = Ok l ->
  Forall (fun x => PyStr.strip x = x) l.
Proof.
  intros (cells & l0 & _ & ->)%load_ok.
  apply Forall_forall. intros x (y & -> & _)%list_elem_of_fmap.
  apply strip_by_idem.
Qed.

(** For a file with a [study_id] column, the identifiers returned are
    exactly the stripped cells of that column. *)
Theorem project_ids_cover_column filepath df cells l :
  read_csv filepath true = Ok df ->
  has_column "study_id" df = true ->
  column "study_id" df = Ok cells ->
  load_project_file read_csv filepath = Ok l ->
  forall x, x ∈ l <-> exists s, CStr s ∈ cells /\ PyStr.strip s = x.
Proof.
  intros Hread Hhas Hcol Hload x.
  rewrite (load_with_header _ _ _ Hread Hhas Hcol) in Hload.
  apply strip_all_ok in Hload as (l0 & Hu & ->).
  rewrite list_elem_of_fmap. split.
  - intros (s & -> & Hs). exists s. split; [|done].
    apply unique_elem. rewrite Hu. unfold cstrs.
    apply list_elem_of_fmap. eauto.
  - intros (s & Hs & <-). exists s. split; [done|].
    apply unique_elem in Hs. rewrite Hu in Hs. unfold cstrs in Hs.
    apply list_elem_of_fmap in Hs as (s' & [= ->] & Hs'). done.
Qed.

(** A cell of the [study_id] column that is not a string (an empty
    field, a number) makes the call raise [AttributeError] for
    [strip]. *)
Theorem non_string_cell_raises filepath df cells c :
  read_csv filepath true = Ok df ->
  has_column "study_id" df = true ->
  column "study_id" df = Ok cells ->
  c ∈ cells -> (forall s, c <> CStr s) ->
  load_project_file read_csv filepath = Err (Std (AttributeError "strip")).
Proof.
  intros Hread Hhas Hcol Hin Hnot.
  rewrite (load_with_header _ _ _ Hread Hhas Hcol).
  apply (strip_all_non_string _ c); [by apply unique_elem|done].
Qed.

Lemma fmap_collision {A B} (f : A -> B) (l : list A) x y :
  x ∈ l -> y ∈ l -> x <> y -> f x = f y -> ~ NoDup (map f l).
Proof.
  intros Hx Hy Hne Hf Hnd.
  induction l as [|a l IH]; [by apply elem_of_nil in Hx|].
  cbn [map] in Hnd. apply NoDup_cons in Hnd as [Ha Hnd].
  apply elem_of_cons in Hx as [->|Hx]; apply elem_of_cons in Hy as [->|Hy].
  - done.
  - apply Ha. rewrite Hf. by apply list_elem_of_fmap_2.
  - apply Ha. rewrite <- Hf. by apply list_elem_of_fmap_2.
  - by apply IH.
Qed.

(** Duplicates are removed before the identifiers are stripped: two
    different cells that are equal once stripped are both kept, so the
    returned list has a repeated identifier. *)
Theorem stripping_brings_duplicates_back filepath df cells s1 s2 l :
  read_csv filepath true = Ok df ->
  has_column "study_id" df = true ->
  column "study_id" df = Ok cells ->
  CStr s1 ∈ cells -> CStr s2 ∈ cells ->
  s1 <> s2 -> PyStr.strip s1 = PyStr.strip s2 ->
  load_project_file read_csv filepath = Ok l ->
  ~ NoDup l.
Proof.
  intros Hread Hhas Hcol H1 H2 Hne Hstrip Hload.
  rewrite (load_with_header _ _ _ Hread Hhas Hcol) in Hload.
  apply strip_all_ok in Hload as (l0 & Hu & ->).
  assert (Hin : forall s, CStr s ∈ cells -> s ∈ l0).
  { intros s Hs. apply unique_elem in Hs. rewrite Hu in Hs. unfold cstrs in Hs.
    by apply list_elem_of_fmap in Hs as (s' & [= ->] & Hs'). }
  apply (fmap_collision PyStr.strip l0 s1 s2); auto.
Qed.

(** Without a [study_id] column the file is read again without a header
    and has to have exactly one column: with none or several the call
    raises [ValueError]. *)
Theorem fallback_needs_single_column filepath df df' :
  read_csv filepath true = Ok df ->
  has_column "study_id" df = false ->
  read_csv filepath false = Ok df' ->
  length df' <> 1%nat ->
  load_project_file read_csv filepath = Err ValueError.
Proof.
  intros Hread Hhas Hread' Hlen. unfold load_project_file.
  rewrite Hread, Hhas. cbn [negb]. rewrite Hread'.
  destruct df' as [|[lbl cells] [|col df']]; [done| |done].
  by destruct Hlen.
Qed.

(** Without a [study_id] column, when the file read without a header
    has a single column, the identifiers returned are exactly the
    stripped cells of that column, whatever its label. *)
Theorem headerless_file_reads_single_column filepath df lbl cells l :
  read_csv filepath true = Ok df ->
  has_column "study_id" df = false ->
  read_csv filepath false = Ok [(lbl, cells)] ->
  load_project_file read_csv filepath = Ok l ->
  forall x, x ∈ l <-> exists s, CStr s ∈ cells /\ PyStr.strip s = x.
Proof.
  intros Hread Hhas Hread' Hload x. unfold load_project_file in Hload.
  rewrite Hread, Hhas in Hload. cbn [negb] in Hload. rewrite Hread' in Hload.
  cbn [set_columns_1 column is_name] in Hload.
  rewrite String.eqb_refl in Hload. cbv zeta in Hload.
  apply strip_all_ok in Hload as (l0 & Hu & ->).
  rewrite list_elem_of_fmap. split.
  - intros (s & -> & Hs). exists s. split; [|done].
    apply unique_elem. rewrite Hu. unfold cstrs.
    apply list_elem_of_fmap. eauto.
  - intros (s & Hs & <-). exists s. split; [done|].
    apply unique_elem in Hs. rewrite Hu in Hs. unfold cstrs in Hs.
    apply list_elem_of_fmap in Hs as (s' & [= ->] & Hs'). done.
Qed.

End ProjectFacts.

(* ===================================================================== *)
(** ** The further theorems at concrete inputs *)
(* ===================================================================== *)

(** C2, at a connection that is reset while the file is copied.  The
    reset reaches the program as an [OSError] that is not a [URLError]:
    the handler of [retrieve_ftp_file] does not catch it, so the call
    raises instead of returning [False], logs no warning and removes
    nothing; the one byte received stays at the destination.  The same
    call against a server whose failure is a [URLError] returns
    [False]. *)
Theorem connection_reset_escapes_handler :
  let reset :=
    Download.retrieve_ftp_file Fixture.toy_md5 Shape.ftp_timeout Shape.any_dir
      "host/r1.fastq" "reads/r1.fastq" "00" true Fixture.empty_world in
  let wrapped :=
    Download.retrieve_ftp_file Fixture.toy_md5 Fixture.ftp_breaks Shape.any_dir
      "host/r1.fastq" "reads/r1.fastq" "00" true Fixture.empty_world in
  snd reset = Raised OSError /\
  log (fst reset) = [] /\
  files (fst reset) !! "reads/r1.fastq" = Some [x40] /\
  snd wrapped = Returned PyFalse.
Proof. split_and!; vm_compute; reflexivity. Qed.

(** A fresh download with the right checksum: the string returned is the
    checksum and the destination holds the delivered file. *)
Lemma returned_checksum_certifies_file_witness :
  let sum := Download.hexdigest (Fixture.toy_md5 Fixture.fastq_bytes) in
  let r :=
    Download.retrieve_ftp_file Fixture.toy_md5 Shape.ftp_good Shape.any_dir
      "host/r1.fastq" "reads/r1.fastq" sum true Fixture.empty_world in
  snd r = Returned (Str sum) /\
  exists c, files (fst r) !! "reads/r1.fastq" = Some c /\
            Download.hexdigest (Fixture.toy_md5 c) = sum.
Proof.
  intros sum r.
  assert (H : snd r = Returned (Str sum)) by (vm_compute; reflexivity).
  split; [exact H|].
  exact (proj2 (returned_checksum_certifies_file Fixture.toy_md5 Shape.ftp_good
                  Shape.any_dir "host/r1.fastq" "reads/r1.fastq" sum true
                  Fixture.empty_world sum H)).
Defined.

(** A delivered file whose digest is not the expected ["00"], into a
    directory that exists: the call returns [False] and the file is at
    the destination. *)
Lemma delivered_file_is_kept_witness :
  let r :=
    Download.retrieve_ftp_file Fixture.toy_md5 Shape.ftp_good Shape.any_dir
      "host/r1.fastq" "reads/r1.fastq" "00" true Fixture.empty_world in
  Shape.download_due Fixture.toy_md5 "reads/r1.fastq" "00" true
    Fixture.empty_world /\
  Shape.any_dir "reads/r1.fastq" = None /\
  snd r = Returned PyFalse /\
  files (fst r) !! "reads/r1.fastq" = Some Fixture.fastq_bytes.
Proof.
  intros r.
  assert (Hdue : Shape.download_due Fixture.toy_md5 "reads/r1.fastq" "00" true
                   Fixture.empty_world) by (by left).
  destruct (delivered_file_is_kept Fixture.toy_md5 Shape.ftp_good Shape.any_dir
              "host/r1.fastq" "reads/r1.fastq" "00" true Fixture.empty_world
              Fixture.fastq_bytes Hdue eq_refl eq_refl) as (Hret & Hfiles & _).
  fold r in Hret, Hfiles. split; [exact Hdue|]. split; [reflexivity|]. split.
  - rewrite Hret. vm_compute. reflexivity.
  - rewrite Hfiles. vm_compute. reflexivity.
Defined.

(** A time-out that urllib does not wrap: the caller gets the [OSError]
    and the one byte written stays at the destination.  And a delivery
    into a directory that does not exist: the caller gets the
    [FileNotFoundError] of [open], and no file is written. *)
Lemma unwrapped_failure_reaches_caller_witness :
  let r :=
    Download.retrieve_ftp_file Fixture.toy_md5 Shape.ftp_timeout Shape.any_dir
      "host/r1.fastq" "reads/r1.fastq" "00" true Fixture.empty_world in
  let r' :=
    Download.retrieve_ftp_file Fixture.toy_md5 Shape.ftp_good Shape.no_dir
      "host/r1.fastq" "reads/r1.fastq" "00" true Fixture.empty_world in
  (Download.is_URLError OSError = false /\
   snd r = Raised OSError /\
   files (fst r) !! "reads/r1.fastq" = Some [x40] /\
   log (fst r) = []) /\
  (Download.transfer_outcome Shape.ftp_good Shape.no_dir
     ("ftp://" +:+ "host/r1.fastq") "reads/r1.fastq"
     = Download.Failed FileNotFoundError None /\
   snd r' = Raised FileNotFoundError /\
   files (fst r') = files Fixture.empty_world /\
   log (fst r') = []).
Proof.
  intros r r'. split.
  - destruct (unwrapped_failure_reaches_caller Fixture.toy_md5 Shape.ftp_timeout
                Shape.any_dir "host/r1.fastq" "reads/r1.fastq" "00" true
                Fixture.empty_world OSError (Some [x40])
                (or_introl eq_refl) eq_refl eq_refl)
      as (Hret & Hfiles & Hlog).
    fold r in Hret, Hfiles, Hlog.
    split; [reflexivity|]. split; [exact Hret|]. split.
    + rewrite Hfiles. vm_compute. reflexivity.
    + rewrite Hlog. reflexivity.
  - destruct (unwrapped_failure_reaches_caller Fixture.toy_md5 Shape.ftp_good
                Shape.no_dir "host/r1.fastq" "reads/r1.fastq" "00" true
                Fixture.empty_world FileNotFoundError None
                (or_introl eq_refl) eq_refl eq_refl)
      as (Hret & Hfiles & Hlog).
    fold r' in Hret, Hfiles, Hlog.
    split; [reflexivity|]. split; [exact Hret|]. split; [exact Hfiles|].
    rewrite Hlog. reflexivity.
Defined.

(** A good delivery into a world that has no copy yet, without
    overwriting. *)
Lemma good_delivery_returns_checksum_witness :
  let sum := Download.hexdigest (Fixture.toy_md5 Fixture.fastq_bytes) in
  Shape.ftp_good ("ftp://" +:+ "host/r1.fastq")
    = Download.Delivered Fixture.fastq_bytes /\
  Shape.any_dir "reads/r1.fastq" = None /\
  snd (Download.retrieve_ftp_file Fixture.toy_md5 Shape.ftp_good Shape.any_dir
         "host/r1.fastq" "reads/r1.fastq" sum false Fixture.shadow_world)
    = Returned (Str sum).
Proof.
  intros sum. split; [reflexivity|]. split; [reflexivity|].
  exact (good_delivery_returns_checksum Fixture.toy_md5 Shape.ftp_good
           Shape.any_dir "host/r1.fastq" "reads/r1.fastq" sum false
           Fixture.shadow_world Fixture.fastq_bytes eq_refl eq_refl eq_refl).
Defined.

(** The local text file ["notes.txt"], which does not exist. *)
Lemma local_reference_stays_local_witness :
  String.eqb (PyStr.slice "notes.txt" (Some 0) (Some 3)) "htt" = false /\
  fst (Tokenizer.parse_document Shape.one_page_site (fun _ => None)
         Fixture.toy_pdf_reader Fixture.latin1 "notes.txt" Fixture.empty_world)
    = Fixture.empty_world.
Proof.
  split; [reflexivity|].
  exact (local_reference_stays_local Shape.one_page_site (fun _ => None)
           Fixture.toy_pdf_reader Fixture.latin1 "notes.txt"
           Fixture.empty_world eq_refl).
Defined.

(** An HTML page with two accessions. *)
Lemma remote_text_tokens_witness :
  PyStr.startswith "htt" "https://host/page.html" = true /\
  snd (Tokenizer.parse_document Shape.one_page_site (fun _ => None)
         Fixture.toy_pdf_reader Fixture.latin1 "https://host/page.html"
         Fixture.empty_world)
    = Returned [""; "p"; "PRJEB1234"; ""; "ERP5678"; ""; "p"; ""].
Proof.
  split; [reflexivity|].
  rewrite (remote_text_tokens Shape.one_page_site (fun _ => None)
             Fixture.toy_pdf_reader Fixture.latin1 "https://host/page.html"
             Fixture.empty_world "<p>PRJEB1234, ERP5678</p>"
             eq_refl eq_refl eq_refl).
  reflexivity.
Defined.

(** A one-page PDF on the web. *)
Lemma remote_pdf_tokens_witness :
  let download (url : string) := Some ("/tmp/tmpq1", Fixture.one_page_pdf) in
  let r :=
    Tokenizer.parse_document Fixture.always_200 download
      Fixture.toy_pdf_reader Fixture.latin1 "https://host/paper.pdf"
      Fixture.empty_world in
  String.eqb (PyStr.slice "https://host/paper.pdf" (Some (-3)) None) "pdf" = true /\
  snd r = Returned ["see"; "PRJEB1234"; "and"; "ERP5678"] /\
  net (fst r) = [HttpGet "https://host/paper.pdf";
                 UrlRetrieve "https://host/paper.pdf"] /\
  files (fst r) !! "/tmp/tmpq1" = Some Fixture.one_page_pdf.
Proof.
  intros download r. split; [reflexivity|]. subst r.
  rewrite (remote_pdf_tokens Fixture.always_200 download
             Fixture.toy_pdf_reader Fixture.latin1 "https://host/paper.pdf"
             Fixture.empty_world EmptyString "/tmp/tmpq1" Fixture.one_page_pdf
             [ {| Tokenizer.page_text := "see PRJEB1234, and ERP5678" |} ]
             eq_refl eq_refl eq_refl eq_refl eq_refl).
  split; [reflexivity|]. split; [reflexivity|]. vm_compute. reflexivity.
Defined.

(** The tokens of the HTML page. *)
Lemma tokens_free_of_delimiters_witness :
  Forall (Shape.free_of Shape.text_delim_chars)
    [""; "p"; "PRJEB1234"; ""; "ERP5678"; ""; "p"; ""].
Proof.
  assert (H : snd (Tokenizer.parse_document Shape.one_page_site (fun _ => None)
                     Fixture.toy_pdf_reader Fixture.latin1
                     "https://host/page.html" Fixture.empty_world)
              = Returned [""; "p"; "PRJEB1234"; ""; "ERP5678"; ""; "p"; ""])
    by (vm_compute; reflexivity).
  exact (proj2 (tokens_free_of_delimiters Shape.one_page_site (fun _ => None)
                  Fixture.toy_pdf_reader Fixture.latin1
                  "https://host/page.html" Fixture.empty_world _ H) eq_refl).
Defined.

(** The one-page PDF stored as ["paper.pdf"]. *)
Lemma local_pdf_needs_no_pages_witness :
  let w := mkWorld {[ "paper.pdf" := Fixture.one_page_pdf ]} [] [] in
  files w !! "paper.pdf" = Some Fixture.one_page_pdf /\
  snd (Tokenizer.parse_document Fixture.always_200 (fun _ => None)
         Fixture.toy_pdf_reader Fixture.latin1 "paper.pdf" w)
    = Raised (AttributeError "extractTexit").
Proof.
  intros w.
  assert (Hfile : files w !! "paper.pdf" = Some Fixture.one_page_pdf)
    by (vm_compute; reflexivity).
  split; [exact Hfile|].
  exact (local_pdf_needs_no_pages Fixture.always_200 (fun _ => None)
           Fixture.toy_pdf_reader Fixture.latin1 "paper.pdf" w
           Fixture.one_page_pdf
           [ {| Tokenizer.page_text := "see PRJEB1234, and ERP5678" |} ]
           eq_refl eq_refl Hfile eq_refl).
Defined.

(** Two words without a stem. *)
Lemma no_stem_no_request_witness :
  Scanner.scrape_ebi_ids Fixture.always_200 ["hello"; "world"]
    Scanner.default_stems Fixture.empty_world
  = (Fixture.empty_world, Returned []).
Proof.
  apply (no_stem_no_request Fixture.always_200 ["hello"; "world"]
           Scanner.default_stems Fixture.empty_world).
  intros t stem Ht Hstem.
  apply list_elem_of_In in Ht, Hstem. simpl in Ht, Hstem.
  destruct Ht as [<-|[<-|[]]];
    destruct Hstem as [<-|[<-|[<-|[<-|[]]]]]; reflexivity.
Defined.

(** The token ["xPRJEB123,"] on a server where everything exists. *)
Lemma returned_accessions_are_confirmed_witness :
  snd (Scanner.scrape_ebi_ids Fixture.always_200 ["xPRJEB123,"]
         Scanner.default_stems Fixture.empty_world) = Returned ["PRJEB123"] /\
  Forall (Shape.confirmed Fixture.always_200 ["xPRJEB123,"] Scanner.default_stems)
    ["PRJEB123"].
Proof.
  assert (H : snd (Scanner.scrape_ebi_ids Fixture.always_200 ["xPRJEB123,"]
                     Scanner.default_stems Fixture.empty_world)
              = Returned ["PRJEB123"]) by (vm_compute; reflexivity).
  split; [exact H|].
  exact (returned_accessions_are_confirmed Fixture.always_200 ["xPRJEB123,"]
           Scanner.default_stems Fixture.empty_world ["PRJEB123"] H).
Defined.

(** The default stems begin with a letter. *)
Lemma returned_accessions_start_with_stem_witness :
  Forall (fun a => exists stem c rest,
                     stem ∈ Scanner.default_stems /\
                     PyStr.isnumeric_char c = true /\
                     a = stem +:+ String c rest) ["PRJEB123"].
Proof.
  assert (H : snd (Scanner.scrape_ebi_ids Fixture.always_200 ["xPRJEB123,"]
                     Scanner.default_stems Fixture.empty_world)
              = Returned ["PRJEB123"]) by (vm_compute; reflexivity).
  apply (returned_accessions_start_with_stem Fixture.always_200 ["xPRJEB123,"]
           Scanner.default_stems Fixture.empty_world ["PRJEB123"]); [|exact H].
  intros stem Hstem. apply list_elem_of_In in Hstem. simpl in Hstem.
  destruct Hstem as [<-|[<-|[<-|[<-|[]]]]];
    eexists _, _; split; reflexivity.
Defined.

(** A dictionary with an unrelated key only. *)
Lemma no_record_no_accessions_witness :
  Accessions.get_ebi_ids (Accessions.VDict [("ERROR", Accessions.VStr "not found")])
    Fixture.empty_world
  = (Spec.logged Fixture.empty_world WARNING "No study information found.",
     Ok (Accessions.VFalse, Accessions.VFalse)).
Proof.
  exact (no_record_no_accessions [("ERROR", Accessions.VStr "not found")]
           Fixture.empty_world eq_refl eq_refl).
Defined.

(** A study set beside a project set: the project set changes nothing. *)
Lemma study_set_shadows_project_set_witness :
  let study :=
    Accessions.VDict
      [("STUDY",
        Accessions.VDict
          [("IDENTIFIERS",
            Accessions.VDict [("PRIMARY_ID", Accessions.VStr "ERP1");
                              ("SECONDARY_ID", Accessions.VStr "PRJEB1")])])] in
  Accessions.get_ebi_ids
    (Accessions.VDict [("PROJECT_SET", Accessions.VStr "ignored");
                       ("STUDY_SET", study)]) Fixture.empty_world
  = (Fixture.empty_world,
     Ok (Accessions.VStr "ERP1", Accessions.VStr "PRJEB1")).
Proof.
  intros study.
  rewrite (study_set_shadows_project_set
             [("PROJECT_SET", Accessions.VStr "ignored"); ("STUDY_SET", study)]
             [("STUDY_SET", study)] study Fixture.empty_world eq_refl eq_refl).
  reflexivity.
Defined.

Lemma study_without_project_id_witness :
  Accessions.get_ebi_ids
    (Accessions.record_of "STUDY_SET" "STUDY"
       [("PRIMARY_ID", Accessions.VStr "ERP1")]) Fixture.empty_world
  = (Spec.logged Fixture.empty_world WARNING "No project ID for study: ERP1",
     Ok (Accessions.VStr "ERP1", Accessions.VStr "ERP1")).
Proof.
  apply (study_without_project_id _ [("PRIMARY_ID", Accessions.VStr "ERP1")]
           "ERP1" Fixture.empty_world); [|reflexivity|reflexivity].
  eexists _, _. split_and!; reflexivity.
Defined.

(** Two project accessions and one other identifier in the list. *)
Lemma secondary_list_is_joined_witness :
  Accessions.get_ebi_ids
    (Accessions.record_of "STUDY_SET" "STUDY"
       [("PRIMARY_ID", Accessions.VStr "ERP1");
        ("SECONDARY_ID",
         Accessions.VList (Accessions.strs ["PRJEB1"; "x"; "PRJNA2"]))])
    Fixture.empty_world
  = (Fixture.empty_world,
     Ok (Accessions.VStr "ERP1", Accessions.VStr "PRJEB1PRJNA2")).
Proof.
  apply (secondary_list_is_joined _
           [("PRIMARY_ID", Accessions.VStr "ERP1");
            ("SECONDARY_ID",
             Accessions.VList (Accessions.strs ["PRJEB1"; "x"; "PRJNA2"]))]
           (Accessions.VStr "ERP1") ["PRJEB1"; "x"; "PRJNA2"]
           Fixture.empty_world); [|reflexivity|reflexivity].
  eexists _, _. split_and!; reflexivity.
Defined.

Lemma project_without_study_id_witness :
  Accessions.get_ebi_ids
    (Accessions.record_of "PROJECT_SET" "PROJECT"
       [("PRIMARY_ID", Accessions.VStr "PRJEB1")]) Fixture.empty_world
  = (Spec.logged Fixture.empty_world WARNING "No study ID for project: PRJEB1",
     Ok (Accessions.VFalse, Accessions.VStr "PRJEB1")).
Proof.
  apply (project_without_study_id _ [("PRIMARY_ID", Accessions.VStr "PRJEB1")]
           "PRJEB1" Fixture.empty_world); [reflexivity| |reflexivity|reflexivity].
  eexists _, _. split_and!; reflexivity.
Defined.

Lemma missing_primary_id_raises_witness :
  Accessions.get_ebi_ids
    (Accessions.record_of "STUDY_SET" "STUDY"
       [("SECONDARY_ID", Accessions.VStr "PRJEB1")]) Fixture.empty_world
  = (Fixture.empty_world, Err (KeyError "PRIMARY_ID")).
Proof.
  apply (missing_primary_id_raises _ [("SECONDARY_ID", Accessions.VStr "PRJEB1")]
           Fixture.empty_world); [reflexivity|].
  left. eexists _, _. split_and!; reflexivity.
Defined.

(** An accession element with an attribute. *)
Lemma warning_needs_string_accession_witness :
  let primary :=
    Accessions.VDict [("@label", Accessions.VStr "x");
                      ("#text", Accessions.VStr "ERP1")] in
  Accessions.get_ebi_ids
    (Accessions.record_of "STUDY_SET" "STUDY" [("PRIMARY_ID", primary)])
    Fixture.empty_world
  = (Fixture.empty_world, Err TypeError).
Proof.
  intros primary.
  apply (warning_needs_string_accession _ [("PRIMARY_ID", primary)] primary
           Fixture.empty_world); [|reflexivity|discriminate|reflexivity].
  eexists _, _. split_and!; reflexivity.
Defined.

(** The path ["out"] on an empty tree. *)
Lemma output_dir_ends_in_slash_witness :
  snd (OutputDir.setup_output_dir (gset string) OutputDir.set_exists
         OutputDir.set_makedirs "out" ∅) = Ok "out/" /\
  Shape.ends_in_slash "out/".
Proof.
  assert (H : snd (OutputDir.setup_output_dir (gset string) OutputDir.set_exists
                     OutputDir.set_makedirs "out" ∅) = Ok "out/")
    by (vm_compute; reflexivity).
  split; [exact H|].
  exact (proj1 (output_dir_ends_in_slash (gset string) OutputDir.set_exists
                  OutputDir.set_makedirs "out" ∅ "out/" H)).
Defined.

Lemma setup_output_dir_idempotent_witness :
  let tree' :=
    fst (OutputDir.setup_output_dir (gset string) OutputDir.set_exists
           OutputDir.set_makedirs "out" ∅) in
  OutputDir.setup_output_dir (gset string) OutputDir.set_exists
    OutputDir.set_makedirs "out/" tree' = (tree', Ok "out/").
Proof.
  intros tree'.
  apply (setup_output_dir_idempotent (gset string) OutputDir.set_exists
           OutputDir.set_makedirs "out" ∅ tree' "out/").
  - intros t q t'. unfold OutputDir.set_makedirs, OutputDir.set_exists.
    destruct (String.eqb q "/proc/x/"); [discriminate|].
    intros [= <-]. apply bool_decide_eq_true_2. set_solver.
  - reflexivity.
Defined.

(** The file ["search.tsv"]: a [study_id] column with ["ERP1 "], ["ERP1"],
    ["ERP1 "] and ["SRP2"]. *)
Lemma project_ids_are_stripped_witness :
  Project.load_project_file Project.toy_read_csv "search.tsv"
    = Ok ["ERP1"; "ERP1"; "SRP2"] /\
  Forall (fun x => PyStr.strip x = x) ["ERP1"; "ERP1"; "SRP2"].
Proof.
  split; [reflexivity|].
  exact (project_ids_are_stripped Project.toy_read_csv "search.tsv"
           ["ERP1"; "ERP1"; "SRP2"] eq_refl).
Defined.

Lemma project_ids_cover_column_witness :
  "SRP2" ∈ ["ERP1"; "ERP1"; "SRP2"] <->
  exists s, Project.CStr s ∈ [Project.CStr "ERP1 "; Project.CStr "ERP1";
                              Project.CStr "ERP1 "; Project.CStr "SRP2"] /\
            PyStr.strip s = "SRP2".
Proof.
  exact (project_ids_cover_column Project.toy_read_csv "search.tsv"
           _ _ ["ERP1"; "ERP1"; "SRP2"] eq_refl eq_refl eq_refl eq_refl "SRP2").
Defined.

(** The file ["gaps.tsv"], with an empty field in the column. *)
Lemma non_string_cell_raises_witness :
  Project.load_project_file Project.toy_read_csv "gaps.tsv"
  = Err (Std (AttributeError "strip")).
Proof.
  apply (non_string_cell_raises Project.toy_read_csv "gaps.tsv"
           _ [Project.CStr "ERP1"; Project.CNaN] Project.CNaN
           eq_refl eq_refl eq_refl).
  - apply elem_of_cons; right. apply elem_of_cons; by left.
  - discriminate.
Defined.

Lemma stripping_brings_duplicates_back_witness :
  Project.load_project_file Project.toy_read_csv "search.tsv"
    = Ok ["ERP1"; "ERP1"; "SRP2"] /\
  ~ NoDup ["ERP1"; "ERP1"; "SRP2"].
Proof.
  split; [reflexivity|].
  apply (stripping_brings_duplicates_back Project.toy_read_csv "search.tsv"
           _ _ "ERP1 " "ERP1" ["ERP1"; "ERP1"; "SRP2"] eq_refl eq_refl eq_refl).
  - apply elem_of_cons; by left.
  - apply elem_of_cons; right. apply elem_of_cons; by left.
  - discriminate.
  - reflexivity.
  - reflexivity.
Defined.

(** The file ["pairs.tsv"]: two columns, none of them [study_id]. *)
Lemma fallback_needs_single_column_witness :
  Project.load_project_file Project.toy_read_csv "pairs.tsv" = Err ValueError.
Proof.
  apply (fallback_needs_single_column Project.toy_read_csv "pairs.tsv"
           _ _ eq_refl eq_refl eq_refl).
  simpl. lia.
Defined.

(** The file ["ids.txt"]: one accession per line, no header. *)
Lemma headerless_file_reads_single_column_witness :
  Project.load_project_file Project.toy_read_csv "ids.txt"
    = Ok ["PRJEB1"; "PRJEB2"] /\
  ("PRJEB1" ∈ ["PRJEB1"; "PRJEB2"] <->
   exists s, Project.CStr s ∈ [Project.CStr "PRJEB1"; Project.CStr "PRJEB2";
                               Project.CStr "PRJEB1"] /\
             PyStr.strip s = "PRJEB1").
Proof.
  split; [reflexivity|].
  exact (headerless_file_reads_single_column Project.toy_read_csv "ids.txt"
           _ (Project.LPos 0) _ ["PRJEB1"; "PRJEB2"]
           eq_refl eq_refl eq_refl eq_refl "PRJEB1").
Defined.
